(** * Open-Source Project Health Dashboard: data model, mock data provider
      and comparison view

    A shallow embedding of [finalUI.ts] (and of its earlier draft, which has
    the same functions over a smaller [ProjectData]) together with the
    properties of the mock data provider [fetchAllDataViaGraphQL] and of the
    comparison view [renderComparisonChart].

    Layout: the definitions come first (JavaScript numbers, the host
    environment with its effect monad, then the two source files, each in a
    module of its own); the lemmas and theorems follow. *)

From Stdlib Require Import ZArith Lia Bool List String.
From Stdlib Require Import SpecFloat.
Import ListNotations.
Local Open Scope string_scope.
Local Open Scope list_scope.
Local Open Scope Z_scope.

(* ================================================================== *)
(** * Part I: definitions                                              *)
(* ================================================================== *)

(** ** JavaScript numbers

    A TypeScript [number] is an IEEE 754 binary64 value.  The Standard
    Library's [spec_float] with precision 53 and exponent bound 1024 is that
    format, with its correctly rounded operations (round to nearest, ties to
    even), signed zeros, infinities and NaN. *)

Module JsNumber.

Definition prec : Z := 53.
Definition emax : Z := 1024.

Definition number : Type := spec_float.

(** The numbers that exist at run time are the canonical ones. *)
Definition valid (x : number) : bool := valid_binary prec emax x.

(** An integer literal such as [500] or [125345]. *)
Definition num (z : Z) : number := binary_normalize prec emax z 0 false.

(** A decimal literal such as [3.5], written [dec 35 10]: the binary64 value
    nearest to the quotient. *)
Definition dec (digits scale : Z) : number :=
  SFdiv prec emax (num digits) (num scale).

Definition mul : number -> number -> number := SFmul prec emax.
Definition add : number -> number -> number := SFadd prec emax.
Definition div : number -> number -> number := SFdiv prec emax.

Definition NaN : number := S754_nan.
Definition Infinity : number := S754_infinity false.

(** [x <= y], [x < y] and [x === y] on numbers: false as soon as an operand
    is NaN, and the two zeros are equal. *)
Definition leb : number -> number -> bool := SFleb.
Definition ltb : number -> number -> bool := SFltb.
Definition eqb : number -> number -> bool := SFeqb.

(** [Math.floor]: the largest integer not above the argument; zeros,
    infinities and NaN are returned unchanged.  A finite number with a
    non-negative exponent is already an integer. *)
Definition Math_floor (x : number) : number :=
  match x with
  | S754_finite s m e =>
      if 0 <=? e then x else num (cond_Zopp s (Zpos m) / 2 ^ (- e))
  | _ => x
  end.

(** The mathematical integer a number denotes, when it is an integer
    ([Number.isInteger] together with the value). *)
Definition integer_value (x : number) : option Z :=
  match x with
  | S754_zero _ => Some 0
  | S754_finite s m e =>
      if 0 <=? e then Some (cond_Zopp s (Zpos m * 2 ^ e))
      else if Zpos m mod 2 ^ (- e) =? 0
           then Some (cond_Zopp s (Zpos m / 2 ^ (- e)))
           else None
  | _ => None
  end.

(** The abstract operation ToIntegerOrInfinity of ECMAScript: NaN and the
    zeros give 0, the infinities themselves, any other number is truncated
    towards zero. *)
Variant IntegerOrInfinity : Type :=
  | Int (z : Z)
  | PosInfinity
  | NegInfinity.

Definition ToIntegerOrInfinity (x : number) : IntegerOrInfinity :=
  match x with
  | S754_nan => Int 0
  | S754_zero _ => Int 0
  | S754_infinity false => PosInfinity
  | S754_infinity true => NegInfinity
  | S754_finite s m e =>
      Int (cond_Zopp s (if 0 <=? e then Zpos m * 2 ^ e
                        else Zpos m / 2 ^ (- e)))
  end.

(** The abstract operation ToLength: ToIntegerOrInfinity clamped to the
    interval from 0 to 2^53 - 1. *)
Definition ToLength (x : number) : Z :=
  match ToIntegerOrInfinity x with
  | NegInfinity => 0
  | PosInfinity => 2 ^ 53 - 1
  | Int z => if z <=? 0 then 0 else Z.min z (2 ^ 53 - 1)
  end.

(** The range of [Math.random]: a number at least 0 and strictly below 1. *)
Definition in_unit_interval (r : number) : bool :=
  valid r && leb (num 0) r && ltb r (num 1).

(** [x] is an integer with [0 <= x < bound]. *)
Definition integer_below (bound : Z) (x : number) : Prop :=
  exists z, integer_value x = Some z /\ 0 <= z < bound.

End JsNumber.

Import JsNumber.

(** ** The host environment

    The functions of the program run against the JavaScript host: the
    pseudo-random generator behind [Math.random], the clock behind
    [Date.now], the console, and the global variables of the program, whose
    type [G] each source file fixes. *)

(** A string built by a template literal.  The holes filled with strings are
    concatenated as they are; a hole filled with a number keeps the number,
    so that its decimal rendering is left to the reader of the console. *)
Variant piece : Type :=
  | Str (s : string)
  | Num (x : number).

Definition text : Type := list piece.

(** The exception of the array constructor ("Invalid array length"). *)
Variant Error : Type :=
  | RangeError.

(** How the evaluation of an expression or a call ends. *)
Variant Completion (A : Type) : Type :=
  | Normal (a : A)
  | Throw (e : Error).
Arguments Normal {A} a.
Arguments Throw {A} e.

(** A settled promise. *)
Variant Promise (A : Type) : Type :=
  | Fulfilled (a : A)
  | Rejected (e : Error).
Arguments Fulfilled {A} a.
Arguments Rejected {A} e.

Record World (G : Type) : Type := mkWorld {
  random_source : nat -> number;  (* the draws of the generator, in order *)
  random_next : nat;              (* how many of them were consumed *)
  clock : number;                 (* milliseconds since the epoch *)
  console : list text;            (* the lines logged so far *)
  globals : G                     (* the program's global variables *)
}.
Arguments mkWorld {G}.
Arguments random_source {G}.
Arguments random_next {G}.
Arguments clock {G}.
Arguments console {G}.
Arguments globals {G}.

(** A value of type [T | null] in a condition: an object is truthy, [null]
    is falsy. *)
Definition truthy {T : Type} (v : option T) : bool :=
  match v with
  | Some _ => true
  | None => false
  end.

(** The largest length an array can have: 2^32 - 1. *)
Definition MAX_ARRAY_LENGTH : Z := 4294967295.

Section Host.
Context {G : Type}.

(** Computations with effects on the world that end normally or throw. *)
Definition JS (A : Type) : Type := World G -> Completion A * World G.

Definition ret {A} (a : A) : JS A := fun w => (Normal a, w).

Definition bind {A B} (m : JS A) (f : A -> JS B) : JS B :=
  fun w =>
    match m w with
    | (Normal a, w') => f a w'
    | (Throw e, w') => (Throw e, w')
    end.

Definition throw {A} (e : Error) : JS A := fun w => (Throw e, w).

(** The call of an [async] function whose body has no [await]: the body
    runs to its end at the call, and the call returns a promise, fulfilled
    with the value returned or rejected with the exception thrown. *)
Definition async {A} (body : JS A) : JS (Promise A) :=
  fun w =>
    match body w with
    | (Normal a, w') => (Normal (Fulfilled a), w')
    | (Throw e, w') => (Normal (Rejected e), w')
    end.

Definition console_log (line : text) : JS unit :=
  fun w =>
    (Normal tt,
     mkWorld (random_source w) (random_next w) (clock w)
             (console w ++ [line]) (globals w)).

Definition Math_random : JS number :=
  fun w =>
    (Normal (random_source w (random_next w)),
     mkWorld (random_source w) (S (random_next w)) (clock w)
             (console w) (globals w)).

Definition Date_now : JS number := fun w => (Normal (clock w), w).

(** The world after [n] more draws of the generator. *)
Definition consume (n : nat) (w : World G) : World G :=
  mkWorld (random_source w) (n + random_next w) (clock w) (console w)
          (globals w).

(** The [n] numbers [Math.floor(Math.random() * bound)] made of the draws
    [start], [start + 1], ... of the generator. *)
Definition scaled_draws (w : World G) (start n : nat) (bound : number)
  : list number :=
  map (fun i => Math_floor (mul (random_source w i) bound)) (seq start n).

Definition get_globals : JS G := fun w => (Normal (globals w), w).

Definition set_globals (g : G) : JS unit :=
  fun w =>
    (Normal tt,
     mkWorld (random_source w) (random_next w) (clock w) (console w) g).

(** The loop of [Array.from] over an array-like source without elements:
    [mapfn] is called for the indices [k], [k + 1], ... in this order, [n]
    times, and its results are the elements. *)
Fixpoint Array_from_loop {A} (n : nat) (k : nat) (mapfn : nat -> JS A)
  : JS (list A) :=
  match n with
  | O => ret []
  | S n' =>
      bind (mapfn k) (fun v =>
      bind (Array_from_loop n' (S k) mapfn) (fun rest =>
      ret (v :: rest)))
  end.

(** [Array.from({ length: l }, mapfn)], by the steps of ECMAScript's
    [Array.from] for a source that is array-like and not iterable:
    - the length [len] is [ToLength l];
    - the array is constructed as [new Array(len)], which throws a RangeError
      when [len] exceeds 2^32 - 1, before [mapfn] is ever called;
    - for [k] from 0 to [len - 1], [mapfn] is called (with [undefined] and
      [k]) and its result is stored at index [k];
    - the array, of length [len], is returned. *)
Definition Array_from {A} (l : number) (mapfn : nat -> JS A)
  : JS (list A) :=
  let len := ToLength l in
  if MAX_ARRAY_LENGTH <? len then throw RangeError
  else Array_from_loop (Z.to_nat len) 0 mapfn.

End Host.

Arguments JS G A : clear implicits.

Declare Scope js_scope.
Delimit Scope js_scope with js.
Notation "x <- m ;; k" := (bind m (fun x => k))
  (at level 61, m at next level, right associativity) : js_scope.
Notation "m ;; k" := (bind m (fun _ => k))
  (at level 61, right associativity) : js_scope.
Local Open Scope js_scope.

(** A world to run the program in: a generator that cycles through 0.1, 0.5
    and the largest number below 1, a clock, an empty console. *)
Definition sample_source (i : nat) : number :=
  match (i mod 3)%nat with
  | O => dec 1 10
  | S O => dec 5 10
  | _ => S754_finite false 9007199254740991 (-53)
  end.

Definition sample_world {G : Type} (g : G) : World G :=
  mkWorld sample_source 0 (num 1700000000000) [] g.

(** ** [finalUI.ts] *)

Module FinalUI.

(** *** 1. Core data structures *)

Record Contributor : Type := {
  user : string;
  avatarUrl : string;
  commits : number;
  loc_changed : number
}.

Record LanguageMetric : Type := {
  name : string;
  percentage : number;
  color : string
}.

(** ['Low' | 'Medium' | 'High'] *)
Variant Severity : Type := Low | Medium | High.

Record IssuePrediction : Type := {
  avgTimeToFirstLabelHours : number;
  severity : Severity;
  nextWeekPredictedIssues : number
}.

Record DoraMetrics : Type := {
  deploymentFrequency : string;
  leadTimeForChangesHours : number;
  timeToRestoreServiceHours : number;
  changeFailureRate : string
}.

Record TeamVelocity : Type := {
  currentSprintName : string;
  totalStoryPoints : number;
  completedStoryPoints : number;
  sprintCompletionPercentage : number
}.

Record ApiStatus : Type := {
  callsMade : number;
  rateLimitRemaining : number;
  rateLimitTotal : number;
  resetTime : number;
  isRateLimited : bool
}.

Record ProjectData : Type := {
  owner : string;
  repo : string;
  fullName : string;
  description : string;
  stars : number;
  primaryLanguage : string;
  avgPrMergeTimeDays : number;
  weeklyCommits : list number;
  weeklyPrOpened : list number;
  weeklyPrMerged : list number;
  weeklyAdditions : list number;
  weeklyDeletions : list number;
  languageBreakdown : list LanguageMetric;
  triageScore : number;
  issuePredictionModel : IssuePrediction;
  doraMetrics : DoraMetrics;
  teamVelocity : TeamVelocity;
  apiStatus : ApiStatus;
  contributors : list Contributor
}.

(** [keyof ProjectData]: the names of the fields above. *)
Variant ProjectDataKey : Type :=
  | key_owner | key_repo | key_fullName | key_description | key_stars
  | key_primaryLanguage | key_avgPrMergeTimeDays
  | key_weeklyCommits | key_weeklyPrOpened | key_weeklyPrMerged
  | key_weeklyAdditions | key_weeklyDeletions
  | key_languageBreakdown | key_triageScore | key_issuePredictionModel
  | key_doraMetrics | key_teamVelocity | key_apiStatus | key_contributors.

Definition key_name (k : ProjectDataKey) : string :=
  match k with
  | key_owner => "owner"
  | key_repo => "repo"
  | key_fullName => "fullName"
  | key_description => "description"
  | key_stars => "stars"
  | key_primaryLanguage => "primaryLanguage"
  | key_avgPrMergeTimeDays => "avgPrMergeTimeDays"
  | key_weeklyCommits => "weeklyCommits"
  | key_weeklyPrOpened => "weeklyPrOpened"
  | key_weeklyPrMerged => "weeklyPrMerged"
  | key_weeklyAdditions => "weeklyAdditions"
  | key_weeklyDeletions => "weeklyDeletions"
  | key_languageBreakdown => "languageBreakdown"
  | key_triageScore => "triageScore"
  | key_issuePredictionModel => "issuePredictionModel"
  | key_doraMetrics => "doraMetrics"
  | key_teamVelocity => "teamVelocity"
  | key_apiStatus => "apiStatus"
  | key_contributors => "contributors"
  end.

Definition all_keys : list ProjectDataKey :=
  [ key_owner; key_repo; key_fullName; key_description; key_stars;
    key_primaryLanguage; key_avgPrMergeTimeDays;
    key_weeklyCommits; key_weeklyPrOpened; key_weeklyPrMerged;
    key_weeklyAdditions; key_weeklyDeletions;
    key_languageBreakdown; key_triageScore; key_issuePredictionModel;
    key_doraMetrics; key_teamVelocity; key_apiStatus; key_contributors ].

(** Whether a string names a field of [ProjectData]. *)
Definition is_ProjectData_field (s : string) : bool :=
  existsb (String.eqb s) (map key_name all_keys).

(** *** 3. Repository comparison view: the state *)

(** The declared type of [comparisonKey]:
    ['weeklyCommits' | 'avgPrMergeTimeDays' | 'triageScore' | 'doraMetrics']. *)
Variant ComparisonKey : Type :=
  | cmp_weeklyCommits
  | cmp_avgPrMergeTimeDays
  | cmp_triageScore
  | cmp_doraMetrics.

Definition comparisonKey_name (k : ComparisonKey) : string :=
  match k with
  | cmp_weeklyCommits => "weeklyCommits"
  | cmp_avgPrMergeTimeDays => "avgPrMergeTimeDays"
  | cmp_triageScore => "triageScore"
  | cmp_doraMetrics => "doraMetrics"
  end.

(** A string literal at the declared type of [comparisonKey]: the type
    checker admits the four literals of the union and no other string.  The
    check is made on the program text; nothing of it is left when the
    program runs. *)
Definition comparisonKey_of_literal (s : string) : option ComparisonKey :=
  if String.eqb s "weeklyCommits" then Some cmp_weeklyCommits
  else if String.eqb s "avgPrMergeTimeDays" then Some cmp_avgPrMergeTimeDays
  else if String.eqb s "triageScore" then Some cmp_triageScore
  else if String.eqb s "doraMetrics" then Some cmp_doraMetrics
  else None.

(** The object behind interface [ComparisonState].  When the program runs,
    [comparisonKey] is a string like any other: its declared type, the union
    above, is erased. *)
Record ComparisonState : Type := {
  repoA : option ProjectData;       (* [ProjectData | null] *)
  repoB : option ProjectData;
  comparisonKey : string
}.

(** The global [comparisonState] as the module initialises it. *)
Definition comparisonState_init : ComparisonState :=
  {| repoA := None; repoB := None; comparisonKey := "weeklyCommits" |}.

(** *** 2. Fetching and data processing logic *)

Definition fetchAllDataViaGraphQL (owner repo : string) (weeks : number)
  : JS ComparisonState (Promise ProjectData) :=
  async (
    console_log [Str "Executing GraphQL query for "; Str owner; Str "/";
                 Str repo; Str " over "; Num weeks; Str " weeks."] ;;
    weeklyCommits <-
      Array_from weeks (fun _ =>
        r <- Math_random ;; ret (Math_floor (mul r (num 500)))) ;;
    weeklyPrOpened <-
      Array_from weeks (fun _ =>
        r <- Math_random ;; ret (Math_floor (mul r (num 80)))) ;;
    weeklyPrMerged <-
      Array_from weeks (fun _ =>
        r <- Math_random ;; ret (Math_floor (mul r (num 60)))) ;;
    weeklyAdditions <-
      Array_from weeks (fun _ =>
        r <- Math_random ;; ret (Math_floor (mul r (num 5000)))) ;;
    weeklyDeletions <-
      Array_from weeks (fun _ =>
        r <- Math_random ;; ret (Math_floor (mul r (num 2000)))) ;;
    now <- Date_now ;;
    ret {|
      owner := owner;
      repo := repo;
      fullName := (owner ++ "/" ++ repo)%string;
      description :=
        "Real-time analysis via GitHub GraphQL. Now includes DORA and Team Velocity metrics.";
      stars := num 125345;
      primaryLanguage := "TypeScript";
      avgPrMergeTimeDays := dec 35 10;
      weeklyCommits := weeklyCommits;
      weeklyPrOpened := weeklyPrOpened;
      weeklyPrMerged := weeklyPrMerged;
      weeklyAdditions := weeklyAdditions;
      weeklyDeletions := weeklyDeletions;
      languageBreakdown :=
        [ {| name := "TypeScript"; percentage := num 70; color := "#3178C6" |};
          {| name := "JavaScript"; percentage := num 20; color := "#F7DF1E" |};
          {| name := "CSS"; percentage := num 10; color := "#563D7C" |} ];
      triageScore := num 85;
      issuePredictionModel :=
        {| avgTimeToFirstLabelHours := dec 42 10;
           severity := Low;
           nextWeekPredictedIssues := num 35 |};
      doraMetrics :=
        {| deploymentFrequency := "3 times per day";
           leadTimeForChangesHours := dec 48 10;
           timeToRestoreServiceHours := dec 5 10;
           changeFailureRate := "5%" |};
      teamVelocity :=
        {| currentSprintName := "Q3 Feature Sprint 2";
           totalStoryPoints := num 50;
           completedStoryPoints := num 35;
           sprintCompletionPercentage := num 70 |};
      apiStatus :=
        {| callsMade := num 15;
           rateLimitRemaining := num 4985;
           rateLimitTotal := num 5000;
           resetTime := add (div now (num 1000)) (num 3600);
           isRateLimited := false |};
      contributors :=
        [ {| user := "gql-master"; avatarUrl := "...";
             commits := num 950; loc_changed := num 75000 |};
          {| user := "api-architect"; avatarUrl := "...";
             commits := num 520; loc_changed := num 45000 |} ]
    |}).

(** *** 3. Repository comparison view: the renderer *)

(** [if (!comparisonState.repoA || !comparisonState.repoB) return;] and then
    the log line that stands for the update of the chart. *)
Definition renderComparisonChart (key : ProjectDataKey)
  : JS ComparisonState unit :=
  comparisonState <- get_globals ;;
  if negb (truthy (repoA comparisonState))
     || negb (truthy (repoB comparisonState))
  then ret tt
  else console_log [Str "Rendering comparison chart for metric: ";
                    Str (key_name key)].

(** [window.onload]: a handler with an empty body. *)
Definition window_onload : JS ComparisonState unit := ret tt.

(** *** Executions

    What a program written against this file does, one step at a time: it
    calls the two functions, the load event fires, and it assigns to the
    fields of the global [comparisonState].  The file has no function that
    sets a field and no check of the value set: an assignment stores what it
    is given. *)
Variant Action : Type :=
  | CallFetch (owner repo : string) (weeks : number)
  | CallRender (key : ProjectDataKey)
  | Load
  | AssignRepoA (v : option ProjectData)
  | AssignRepoB (v : option ProjectData)
  | AssignComparisonKey (value : string).

Definition perform (a : Action) (w : World ComparisonState)
  : World ComparisonState :=
  let st := globals w in
  match a with
  | CallFetch owner repo weeks =>
      snd (fetchAllDataViaGraphQL owner repo weeks w)
  | CallRender key => snd (renderComparisonChart key w)
  | Load => snd (window_onload w)
  | AssignRepoA v =>
      snd (set_globals
             {| repoA := v; repoB := repoB st;
                comparisonKey := comparisonKey st |} w)
  | AssignRepoB v =>
      snd (set_globals
             {| repoA := repoA st; repoB := v;
                comparisonKey := comparisonKey st |} w)
  | AssignComparisonKey value =>
      snd (set_globals
             {| repoA := repoA st; repoB := repoB st;
                comparisonKey := value |} w)
  end.

Fixpoint run (actions : list Action) (w : World ComparisonState)
  : World ComparisonState :=
  match actions with
  | [] => w
  | a :: rest => run rest (perform a w)
  end.

(** The steps of a program that the type checker admits: what it assigns to
    [comparisonKey] is a literal of the declared type. *)
Definition well_typed (a : Action) : bool :=
  match a with
  | AssignComparisonKey value =>
      match comparisonKey_of_literal value with
      | Some _ => true
      | None => false
      end
  | _ => true
  end.

(** The global variable [comparisonState] in a world. *)
Definition comparisonState (w : World ComparisonState) : ComparisonState :=
  globals w.

(** A short session: fetch, select a metric, render. *)
Definition sample_actions : list Action :=
  [ CallFetch "octocat" "hello-world" (num 2);
    AssignComparisonKey "triageScore";
    CallRender key_triageScore ].

(** [fetchAllDataViaGraphQL owner repo weeks], called in world [w], returns a
    promise fulfilled with [p]. *)
Definition produces (owner repo : string) (weeks : number)
  (w : World ComparisonState) (p : ProjectData) : Prop :=
  fst (fetchAllDataViaGraphQL owner repo weeks w) = Normal (Fulfilled p).

(** The five weekly sequences of [p] have [v] elements each. *)
Definition has_weekly_length (p : ProjectData) (v : Z) : Prop :=
  Z.of_nat (List.length (weeklyCommits p)) = v /\
  Z.of_nat (List.length (weeklyPrOpened p)) = v /\
  Z.of_nat (List.length (weeklyPrMerged p)) = v /\
  Z.of_nat (List.length (weeklyAdditions p)) = v /\
  Z.of_nat (List.length (weeklyDeletions p)) = v.

(** *** Notions used to state further facts *)

(** The line the data provider logs, and the line that stands for a
    rendered chart. *)
Definition fetch_line (owner repo : string) (weeks : number) : text :=
  [Str "Executing GraphQL query for "; Str owner; Str "/"; Str repo;
   Str " over "; Num weeks; Str " weeks."].

Definition render_line (key : ProjectDataKey) : text :=
  [Str "Rendering comparison chart for metric: "; Str (key_name key)].

Definition is_fetch_line (line : text) : bool :=
  match line with
  | Str s :: _ => String.eqb s "Executing GraphQL query for "
  | _ => false
  end.

(** The steps that call a function of the file (and assign nothing). *)
Definition is_call (a : Action) : bool :=
  match a with
  | CallFetch _ _ _ | CallRender _ | Load => true
  | AssignRepoA _ | AssignRepoB _ | AssignComparisonKey _ => false
  end.

Definition is_fetch (a : Action) : bool :=
  match a with
  | CallFetch _ _ _ => true
  | _ => false
  end.


End FinalUI.

(** ** The earlier draft of the file

    The same two functions over a [ProjectData] without the DORA, team
    velocity and API status records, and a [comparisonKey] of three
    literals. *)

Module Part000.

(** *** 1. Data structures of the GraphQL response, 2. issue prediction *)

Record Contributor : Type := {
  user : string;
  avatarUrl : string;
  commits : number;
  loc_changed : number
}.

Record LanguageMetric : Type := {
  name : string;
  percentage : number;
  color : string
}.

(** ['Low' | 'Medium' | 'High'] *)
Variant Severity : Type := Low | Medium | High.

Record IssuePrediction : Type := {
  avgTimeToFirstLabelHours : number;
  severity : Severity;
  nextWeekPredictedIssues : number
}.

Record ProjectData : Type := {
  owner : string;
  repo : string;
  fullName : string;
  description : string;
  stars : number;
  primaryLanguage : string;
  avgPrMergeTimeDays : number;
  weeklyCommits : list number;
  weeklyPrOpened : list number;
  weeklyPrMerged : list number;
  weeklyAdditions : list number;
  weeklyDeletions : list number;
  languageBreakdown : list LanguageMetric;
  triageScore : number;
  issuePredictionModel : IssuePrediction;
  contributors : list Contributor
}.

(** [keyof ProjectData]: the names of the fields above. *)
Variant ProjectDataKey : Type :=
  | key_owner | key_repo | key_fullName | key_description | key_stars
  | key_primaryLanguage | key_avgPrMergeTimeDays
  | key_weeklyCommits | key_weeklyPrOpened | key_weeklyPrMerged
  | key_weeklyAdditions | key_weeklyDeletions
  | key_languageBreakdown | key_triageScore | key_issuePredictionModel
  | key_contributors.

Definition key_name (k : ProjectDataKey) : string :=
  match k with
  | key_owner => "owner"
  | key_repo => "repo"
  | key_fullName => "fullName"
  | key_description => "description"
  | key_stars => "stars"
  | key_primaryLanguage => "primaryLanguage"
  | key_avgPrMergeTimeDays => "avgPrMergeTimeDays"
  | key_weeklyCommits => "weeklyCommits"
  | key_weeklyPrOpened => "weeklyPrOpened"
  | key_weeklyPrMerged => "weeklyPrMerged"
  | key_weeklyAdditions => "weeklyAdditions"
  | key_weeklyDeletions => "weeklyDeletions"
  | key_languageBreakdown => "languageBreakdown"
  | key_triageScore => "triageScore"
  | key_issuePredictionModel => "issuePredictionModel"
  | key_contributors => "contributors"
  end.

Definition all_keys : list ProjectDataKey :=
  [ key_owner; key_repo; key_fullName; key_description; key_stars;
    key_primaryLanguage; key_avgPrMergeTimeDays;
    key_weeklyCommits; key_weeklyPrOpened; key_weeklyPrMerged;
    key_weeklyAdditions; key_weeklyDeletions;
    key_languageBreakdown; key_triageScore; key_issuePredictionModel;
    key_contributors ].

(** Whether a string names a field of [ProjectData]. *)
Definition is_ProjectData_field (s : string) : bool :=
  existsb (String.eqb s) (map key_name all_keys).

(** *** 3. Repository comparison view: the state *)

(** The declared type of [comparisonKey]:
    ['weeklyCommits' | 'avgPrMergeTimeDays' | 'triageScore']. *)
Variant ComparisonKey : Type :=
  | cmp_weeklyCommits
  | cmp_avgPrMergeTimeDays
  | cmp_triageScore.

Definition comparisonKey_name (k : ComparisonKey) : string :=
  match k with
  | cmp_weeklyCommits => "weeklyCommits"
  | cmp_avgPrMergeTimeDays => "avgPrMergeTimeDays"
  | cmp_triageScore => "triageScore"
  end.

(** A string literal at the declared type of [comparisonKey]: the type
    checker admits the three literals of the union and no other string.  The
    check is made on the program text; nothing of it is left when the
    program runs. *)
Definition comparisonKey_of_literal (s : string) : option ComparisonKey :=
  if String.eqb s "weeklyCommits" then Some cmp_weeklyCommits
  else if String.eqb s "avgPrMergeTimeDays" then Some cmp_avgPrMergeTimeDays
  else if String.eqb s "triageScore" then Some cmp_triageScore
  else None.

(** The object behind interface [ComparisonState].  When the program runs,
    [comparisonKey] is a string like any other: its declared type, the union
    above, is erased. *)
Record ComparisonState : Type := {
  repoA : option ProjectData;       (* [ProjectData | null] *)
  repoB : option ProjectData;
  comparisonKey : string
}.

(** The global [comparisonState] as the module initialises it. *)
Definition comparisonState_init : ComparisonState :=
  {| repoA := None; repoB := None; comparisonKey := "weeklyCommits" |}.

(** *** The data provider *)

Definition fetchAllDataViaGraphQL (owner repo : string) (weeks : number)
  : JS ComparisonState (Promise ProjectData) :=
  async (
    console_log [Str "Executing GraphQL query for "; Str owner; Str "/";
                 Str repo; Str " over "; Num weeks; Str " weeks."] ;;
    weeklyCommits <-
      Array_from weeks (fun _ =>
        r <- Math_random ;; ret (Math_floor (mul r (num 500)))) ;;
    weeklyPrOpened <-
      Array_from weeks (fun _ =>
        r <- Math_random ;; ret (Math_floor (mul r (num 80)))) ;;
    weeklyPrMerged <-
      Array_from weeks (fun _ =>
        r <- Math_random ;; ret (Math_floor (mul r (num 60)))) ;;
    weeklyAdditions <-
      Array_from weeks (fun _ =>
        r <- Math_random ;; ret (Math_floor (mul r (num 5000)))) ;;
    weeklyDeletions <-
      Array_from weeks (fun _ =>
        r <- Math_random ;; ret (Math_floor (mul r (num 2000)))) ;;
    ret {|
      owner := owner;
      repo := repo;
      fullName := (owner ++ "/" ++ repo)%string;
      description :=
        "Real-time analysis via GitHub GraphQL.";
      stars := num 125345;
      primaryLanguage := "TypeScript";
      avgPrMergeTimeDays := dec 35 10;
      weeklyCommits := weeklyCommits;
      weeklyPrOpened := weeklyPrOpened;
      weeklyPrMerged := weeklyPrMerged;
      weeklyAdditions := weeklyAdditions;
      weeklyDeletions := weeklyDeletions;
      languageBreakdown :=
        [ {| name := "TypeScript"; percentage := num 70; color := "#3178C6" |};
          {| name := "JavaScript"; percentage := num 20; color := "#F7DF1E" |};
          {| name := "CSS"; percentage := num 10; color := "#563D7C" |} ];
      triageScore := num 85;
      issuePredictionModel :=
        {| avgTimeToFirstLabelHours := dec 42 10;
           severity := Low;
           nextWeekPredictedIssues := num 35 |};
      contributors :=
        [ {| user := "gql-master"; avatarUrl := "...";
             commits := num 950; loc_changed := num 75000 |} ]
    |}).

(** *** 3. Repository comparison view: the renderer *)

(** [if (!comparisonState.repoA || !comparisonState.repoB) return;] and then
    the log line that stands for the update of the chart. *)
Definition renderComparisonChart (key : ProjectDataKey)
  : JS ComparisonState unit :=
  comparisonState <- get_globals ;;
  if negb (truthy (repoA comparisonState))
     || negb (truthy (repoB comparisonState))
  then ret tt
  else console_log [Str "Rendering comparison chart for metric: ";
                    Str (key_name key)].

(** [window.onload]: a handler with an empty body. *)
Definition window_onload : JS ComparisonState unit := ret tt.

(** *** Executions

    What a program written against this file does, one step at a time: it
    calls the two functions, the load event fires, and it assigns to the
    fields of the global [comparisonState].  The file has no function that
    sets a field and no check of the value set: an assignment stores what it
    is given. *)
Variant Action : Type :=
  | CallFetch (owner repo : string) (weeks : number)
  | CallRender (key : ProjectDataKey)
  | Load
  | AssignRepoA (v : option ProjectData)
  | AssignRepoB (v : option ProjectData)
  | AssignComparisonKey (value : string).

Definition perform (a : Action) (w : World ComparisonState)
  : World ComparisonState :=
  let st := globals w in
  match a with
  | CallFetch owner repo weeks =>
      snd (fetchAllDataViaGraphQL owner repo weeks w)
  | CallRender key => snd (renderComparisonChart key w)
  | Load => snd (window_onload w)
  | AssignRepoA v =>
      snd (set_globals
             {| repoA := v; repoB := repoB st;
                comparisonKey := comparisonKey st |} w)
  | AssignRepoB v =>
      snd (set_globals
             {| repoA := repoA st; repoB := v;
                comparisonKey := comparisonKey st |} w)
  | AssignComparisonKey value =>
      snd (set_globals
             {| repoA := repoA st; repoB := repoB st;
                comparisonKey := value |} w)
  end.

Fixpoint run (actions : list Action) (w : World ComparisonState)
  : World ComparisonState :=
  match actions with
  | [] => w
  | a :: rest => run rest (perform a w)
  end.

(** The steps of a program that the type checker admits: what it assigns to
    [comparisonKey] is a literal of the declared type. *)
Definition well_typed (a : Action) : bool :=
  match a with
  | AssignComparisonKey value =>
      match comparisonKey_of_literal value with
      | Some _ => true
      | None => false
      end
  | _ => true
  end.

(** The global variable [comparisonState] in a world. *)
Definition comparisonState (w : World ComparisonState) : ComparisonState :=
  globals w.

(** A short session: fetch, select a metric, render. *)
Definition sample_actions : list Action :=
  [ CallFetch "octocat" "hello-world" (num 2);
    AssignComparisonKey "triageScore";
    CallRender key_triageScore ].

(** [fetchAllDataViaGraphQL owner repo weeks], called in world [w], returns a
    promise fulfilled with [p]. *)
Definition produces (owner repo : string) (weeks : number)
  (w : World ComparisonState) (p : ProjectData) : Prop :=
  fst (fetchAllDataViaGraphQL owner repo weeks w) = Normal (Fulfilled p).

(** The five weekly sequences of [p] have [v] elements each. *)
Definition has_weekly_length (p : ProjectData) (v : Z) : Prop :=
  Z.of_nat (List.length (weeklyCommits p)) = v /\
  Z.of_nat (List.length (weeklyPrOpened p)) = v /\
  Z.of_nat (List.length (weeklyPrMerged p)) = v /\
  Z.of_nat (List.length (weeklyAdditions p)) = v /\
  Z.of_nat (List.length (weeklyDeletions p)) = v.

End Part000.

(* ================================================================== *)
(** * Part II: lemmas and theorems                                     *)
(* ================================================================== *)

(** ** Rounding in binary64

    The product of two numbers is the exact product rounded to nearest; the
    lemmas below follow the Standard Library's [binary_round_aux] through the
    right shift that drops the low bits, the rounding of the kept ones and
    the renormalisation, and bound the result from above. *)

Section Rounding.

(** The iteration of [SpecFloat] is the usual one. *)
Lemma iter_pos_nat {A} (f : A -> A) p x :
  iter_pos f p x = Nat.iter (Pos.to_nat p) f x.
Proof.
  revert x; induction p as [p IH|p IH|]; intros x; cbn [iter_pos].
  - rewrite !IH, Pos2Nat.inj_xI.
    replace (S (2 * Pos.to_nat p))%nat
      with (Pos.to_nat p + S (Pos.to_nat p))%nat by lia.
    rewrite Nat.iter_add, Nat.iter_succ_r. reflexivity.
  - rewrite !IH, Pos2Nat.inj_xO.
    replace (2 * Pos.to_nat p)%nat
      with (Pos.to_nat p + Pos.to_nat p)%nat by lia.
    rewrite Nat.iter_add. reflexivity.
  - reflexivity.
Qed.

(** One step of the right shift halves the mantissa and records the bit
    that falls off. *)
Lemma shr_1_m mrs : 0 <= shr_m mrs -> shr_m (shr_1 mrs) = shr_m mrs / 2.
Proof.
  destruct mrs as [m r s]; cbn [shr_m]; intros Hm.
  destruct m as [|[p|p|]|p]; cbn [shr_1 shr_m]; try reflexivity; try lia.
  - rewrite Pos2Z.inj_xI. apply Z.div_unique with 1; lia.
  - rewrite Pos2Z.inj_xO. apply Z.div_unique with 0; lia.
Qed.

Lemma shr_1_r mrs : 0 <= shr_m mrs -> shr_r (shr_1 mrs) = Z.odd (shr_m mrs).
Proof.
  destruct mrs as [m r s]; cbn [shr_m]; intros Hm.
  destruct m as [|[p|p|]|p]; cbn [shr_1 shr_r]; try reflexivity; lia.
Qed.

Lemma odd_div2 a : Z.odd a = true -> a = 2 * (a / 2) + 1.
Proof.
  intros Ho. apply Z.odd_spec in Ho. destruct Ho as [q Hq].
  rewrite <- (Z.div_unique a 2 q 1); lia.
Qed.

(** After [n + 1] steps the mantissa is the quotient by [2 ^ (n + 1)]; when
    the round bit is set, the part shifted out is at least half a unit of
    the result. *)
Lemma shr_iter_spec m0 n mrs :
  0 <= shr_m mrs -> shr_m mrs = m0 ->
  let res := Nat.iter (S n) shr_1 mrs in
  shr_m res = m0 / 2 ^ Z.of_nat (S n) /\
  (shr_r res = true -> shr_m res * 2 ^ Z.of_nat (S n) + 2 ^ Z.of_nat n <= m0).
Proof.
  intros Hm <-. induction n as [|n IH].
  - cbn [Nat.iter]. rewrite shr_1_m, shr_1_r by assumption. split.
    + reflexivity.
    + intros Ho. change (2 ^ Z.of_nat 1) with 2. change (2 ^ Z.of_nat 0) with 1.
      apply odd_div2 in Ho. lia.
  - set (prev := Nat.iter (S n) shr_1 mrs) in *. cbn zeta in IH.
    destruct IH as [IHm IHr].
    change (Nat.iter (S (S n)) shr_1 mrs) with (shr_1 prev). cbn zeta.
    assert (Hp : 0 <= shr_m prev) by (rewrite IHm; apply Z.div_pos; lia).
    rewrite shr_1_m, shr_1_r by assumption.
    assert (E2 : 2 ^ Z.of_nat (S (S n)) = 2 * 2 ^ Z.of_nat (S n)).
    { rewrite (Nat2Z.inj_succ (S n)), Z.pow_succ_r by lia. reflexivity. }
    split.
    + rewrite IHm, E2, Z.div_div by lia. f_equal. lia.
    + intros Ho. apply odd_div2 in Ho.
      pose proof (Z.mul_div_le (shr_m mrs) (2 ^ Z.of_nat (S n)) ltac:(lia)).
      rewrite <- IHm in H. rewrite E2. nia.
Qed.

(** The number of binary digits of a positive number. *)
Lemma digits2_pos_spec p :
  2 ^ (Zpos (digits2_pos p) - 1) <= Zpos p < 2 ^ Zpos (digits2_pos p).
Proof.
  induction p as [p IH|p IH|]; cbn [digits2_pos].
  - rewrite Pos2Z.inj_succ, (Pos2Z.inj_xI p).
    replace (Z.succ (Zpos (digits2_pos p)) - 1)
      with (Z.succ (Zpos (digits2_pos p) - 1)) by lia.
    rewrite !Z.pow_succ_r by lia. lia.
  - rewrite Pos2Z.inj_succ, (Pos2Z.inj_xO p).
    replace (Z.succ (Zpos (digits2_pos p)) - 1)
      with (Z.succ (Zpos (digits2_pos p) - 1)) by lia.
    rewrite !Z.pow_succ_r by lia. lia.
  - cbn. lia.
Qed.

(** The right shift of an exact mantissa by [n] places (none when [n] is
    not positive). *)
Lemma shr_exact_spec m e n :
  0 <= m ->
  let '(mrs, e') := shr (Build_shr_record m false false) e n in
  e' = e + Z.max n 0 /\
  shr_m mrs = m / 2 ^ (Z.max n 0) /\
  (shr_r mrs = true ->
   1 <= e' - e /\ shr_m mrs * 2 ^ (e' - e) + 2 ^ (e' - e - 1) <= m).
Proof.
  intros Hm. destruct n as [|p|p]; cbn [shr].
  - cbn [shr_m shr_r Z.max Z.compare]. rewrite Z.div_1_r.
    repeat split; try lia; intros; discriminate.
  - rewrite iter_pos_nat.
    destruct (Pos2Nat.is_succ p) as [k Hk]. rewrite Hk.
    destruct (shr_iter_spec m k (Build_shr_record m false false) Hm eq_refl)
      as [H1 H2].
    assert (Ep : Z.of_nat (S k) = Zpos p)
      by (rewrite <- Hk; apply positive_nat_Z).
    rewrite Ep in *.
    rewrite Z.max_l by lia.
    replace (e + Zpos p - e) with (Zpos p) by lia.
    replace (Zpos p - 1) with (Z.of_nat k) by lia.
    repeat split; auto; lia.
  - cbn [shr_m shr_r]. rewrite Z.max_r by lia. rewrite Z.div_1_r.
    repeat split; try lia; intros; discriminate.
Qed.

(** Rounding to nearest adds at most one unit, and none when the round bit
    is clear. *)
Lemma round_nearest_even_bound mrs :
  let m2 := round_nearest_even (shr_m mrs) (loc_of_shr_record mrs) in
  shr_m mrs <= m2 <= shr_m mrs + 1 /\ (shr_r mrs = false -> m2 = shr_m mrs).
Proof.
  destruct mrs as [m [|] [|]];
    cbn [shr_m shr_r loc_of_shr_record round_nearest_even];
    try destruct (Z.even m); repeat split; intros; try lia; discriminate.
Qed.

(** The rounding of the exact value [P * 2 ^ E]: the result [m'' * 2 ^ e'']
    exceeds it by at most half a unit in the last place [2 ^ e'], where [e']
    is the exponent the format gives to a number of that size. *)
Lemma binary_round_aux_spec (P : positive) (E : Z) :
  exists m'' e'' e',
    e' = Z.max E (fexp prec emax (Zpos (digits2_pos P) + E)) /\
    e' <= e'' /\ 0 <= m'' /\
    m'' * 2 ^ (e'' - E) <= Zpos P + 2 ^ (e' - E - 1) /\
    binary_round_aux prec emax false (Zpos P) E loc_Exact =
      match m'' with
      | Z0 => S754_zero false
      | Zpos m => if e'' <=? emax - prec then S754_finite false m e''
                  else S754_infinity false
      | Zneg _ => S754_nan
      end.
Proof.
  unfold binary_round_aux, shr_fexp. cbn [shr_record_of_loc Zdigits2].
  set (n := fexp prec emax (Zpos (digits2_pos P) + E) - E).
  pose proof (shr_exact_spec (Zpos P) E n ltac:(lia)) as H1.
  destruct (shr _ E n) as [mrs' e'].
  destruct H1 as (He' & Hm1 & Hr1).
  pose proof (round_nearest_even_bound mrs') as Hrne. cbn zeta in Hrne.
  set (m2 := round_nearest_even (shr_m mrs') (loc_of_shr_record mrs')) in *.
  assert (Hm1pos : 0 <= shr_m mrs') by (rewrite Hm1; apply Z.div_pos; lia).
  set (n2 := fexp prec emax (Zdigits2 m2 + e') - e').
  pose proof (shr_exact_spec m2 e' n2 ltac:(lia)) as H2.
  destruct (shr _ e' n2) as [mrs'' e''].
  destruct H2 as (He'' & Hm'' & _).
  exists (shr_m mrs''), e'', e'.
  assert (Hm''pos : 0 <= shr_m mrs'') by (rewrite Hm''; apply Z.div_pos; lia).
  repeat split; try lia.
  replace (e'' - E) with ((e'' - e') + (e' - E)) by lia.
  rewrite Z.pow_add_r by lia.
  replace (e'' - e') with (Z.max n2 0) by lia.
  pose proof (Z.mul_div_le m2 (2 ^ Z.max n2 0) ltac:(lia)) as Hle.
  rewrite <- Hm'' in Hle.
  assert (HB : 0 < 2 ^ (e' - E)) by (apply Z.pow_pos_nonneg; lia).
  assert (HC : 0 <= 2 ^ (e' - E - 1)) by (apply Z.pow_nonneg; lia).
  assert (Hgoal : m2 * 2 ^ (e' - E) <= Zpos P + 2 ^ (e' - E - 1)).
  { destruct (shr_r mrs') eqn:Er.
    - destruct (Hr1 eq_refl) as [Hn Hb].
      assert (HBC : 2 ^ (e' - E) = 2 * 2 ^ (e' - E - 1)).
      { replace (e' - E) with (Z.succ (e' - E - 1)) at 1 by lia.
        rewrite Z.pow_succ_r by lia. reflexivity. }
      nia.
    - destruct Hrne as [_ Heq]. rewrite (Heq eq_refl), Hm1.
      replace (e' - E) with (Z.max n 0) by lia.
      pose proof (Z.mul_div_le (Zpos P) (2 ^ Z.max n 0) ltac:(lia)). lia. }
  nia.
Qed.

(** A draw of [Math.random] is a zero or a positive number whose mantissa
    is below [2 ^ 53] and whose exponent is at most [-53]. *)
Lemma in_unit_interval_inv r :
  in_unit_interval r = true ->
  (exists s, r = S754_zero s) \/
  (exists m e, r = S754_finite false m e /\ e <= -53 /\ Zpos m < 2 ^ 53).
Proof.
  unfold in_unit_interval. intros H.
  apply andb_true_iff in H. destruct H as [H Hlt].
  apply andb_true_iff in H. destruct H as [Hv Hle].
  change (num 0) with (S754_zero false) in Hle.
  change (num 1) with (S754_finite false 4503599627370496 (-52)) in Hlt.
  unfold leb, SFleb in Hle. unfold ltb, SFltb in Hlt.
  destruct r as [s|[|]| |[|] m e]; cbn [SFcompare] in Hle, Hlt;
    try discriminate.
  - left. now exists s.
  - right. exists m, e. split; [reflexivity|].
    unfold valid in Hv. cbn [valid_binary] in Hv.
    unfold bounded, canonical_mantissa in Hv.
    apply andb_true_iff in Hv. destruct Hv as [Hc _].
    apply Z.eqb_eq in Hc. unfold fexp, emin, prec, emax in Hc.
    pose proof (digits2_pos_spec m) as Hd.
    set (d := Zpos (digits2_pos m)) in *.
    assert (Hd53 : d <= 53) by lia.
    assert (Hm : Zpos m < 2 ^ 53).
    { eapply Z.lt_le_trans; [apply Hd|]. apply Z.pow_le_mono_r; lia. }
    split; [|exact Hm].
    destruct (Z.compare_spec e (-52)) as [He|He|He]; try discriminate; [|lia].
    exfalso. subst e.
    assert (Hd' : d = 53) by lia.
    rewrite Pos.compare_cont_spec in Hlt. cbn [Pos.switch_Eq] in Hlt.
    destruct (Pos.compare_spec m 4503599627370496) as [Hm'|Hm'|Hm'];
      try discriminate.
    destruct Hd as [Hlow _]. rewrite Hd' in Hlow.
    change (2 ^ (53 - 1)) with 4503599627370496 in Hlow.
    apply Pos2Z.pos_lt_pos in Hm'. clear - Hlow Hm'. lia.
Qed.

Lemma pow2_split a b : 0 <= a -> 0 <= b -> 2 ^ (a + b) = 2 ^ a * 2 ^ b.
Proof. intros. apply Z.pow_add_r; assumption. Qed.

Lemma pow2_pos a : 0 <= a -> 0 < 2 ^ a.
Proof. intros. apply Z.pow_pos_nonneg; lia. Qed.

(** For [x = mx * 2 ^ ex < 1] and an integer [N = my * 2 ^ (- k)], the
    rounded product of [x] and [N] stays strictly below [N]: half a unit in
    the last place of the product is less than the distance [N * (1 - x)]. *)
Lemma product_rounds_below (mx my : positive) (ex k N : Z) m'' e'' e' :
  ex <= -53 -> Zpos mx < 2 ^ 53 ->
  0 <= k -> Zpos my = N * 2 ^ k -> Zpos my < 2 ^ 53 ->
  e' = Z.max (ex + - k)
             (fexp prec emax (Zpos (digits2_pos (mx * my)) + (ex + - k))) ->
  e' <= e'' -> 0 <= m'' ->
  m'' * 2 ^ (e'' - (ex + - k)) <= Zpos (mx * my) + 2 ^ (e' - (ex + - k) - 1) ->
  m'' * 2 ^ (e'' - (ex + - k)) < N * 2 ^ (k - ex).
Proof.
  intros Hex Hmx Hk Hmy Hmy53 He' He'' Hm'' Hle.
  assert (HN : 1 <= N) by (pose proof (pow2_pos k Hk); nia).
  assert (Hk52 : k <= 52).
  { assert (2 ^ k < 2 ^ 53) by (pose proof (pow2_pos k Hk); nia).
    apply Z.pow_lt_mono_r_iff in H; lia. }
  assert (HNE : N * 2 ^ (k - ex) = Zpos my * 2 ^ (- ex)).
  { replace (k - ex) with (k + - ex) by lia.
    rewrite pow2_split by lia. rewrite Hmy. ring. }
  rewrite HNE. eapply Z.le_lt_trans; [exact Hle|].
  rewrite Pos2Z.inj_mul.
  assert (H53 : 2 ^ 53 <= 2 ^ (- ex)) by (apply Z.pow_le_mono_r; lia).
  pose proof (digits2_pos_spec (mx * my)) as Hd. rewrite Pos2Z.inj_mul in Hd.
  set (d := Zpos (digits2_pos (mx * my))) in *.
  set (E := ex + - k) in *.
  unfold fexp, SpecFloat.emin, prec, emax in He'.
  assert (Hcases : e' = E \/ (e' = d + E - 53 /\ E < e') \/
                   (e' = -1074 /\ E < e')) by lia.
  destruct Hcases as [Hc|[[Hc Hgt]|[Hc Hgt]]].
  - replace (e' - E - 1) with (-1) by lia. change (2 ^ (-1)) with 0.
    nia.
  - replace (e' - E - 1) with (d - 54) by lia.
    assert (Hsplit : 2 ^ (d - 1) = 2 ^ (d - 54) * 2 ^ 53).
    { replace (d - 1) with ((d - 54) + 53) by lia. apply pow2_split; lia. }
    pose proof (pow2_pos (d - 54) ltac:(lia)).
    nia.
  - assert (Ht : 2 ^ (- ex) = 2 * 2 ^ (- ex - 1)).
    { replace (- ex) with (Z.succ (- ex - 1)) at 1 by lia.
      rewrite Z.pow_succ_r by lia. reflexivity. }
    assert (H53' : 2 ^ 53 <= 2 ^ (- ex - 1)) by (apply Z.pow_le_mono_r; lia).
    assert (Hsmall : 2 ^ (e' - E - 1) <= 2 ^ (- ex - 1)).
    { apply Z.pow_le_mono_r; lia. }
    nia.
Qed.

(** [Math.floor(r * N)] for a draw [r] and an integer factor [N] given by
    its mantissa and exponent. *)
Lemma floor_scaled_unit (N : Z) (my : positive) (k : Z) (r : number) :
  0 <= k -> Zpos my = N * 2 ^ k -> Zpos my < 2 ^ 53 ->
  (forall z, 0 <= z < N -> integer_value (num z) = Some z) ->
  in_unit_interval r = true ->
  exists z,
    integer_value (Math_floor (mul r (S754_finite false my (- k)))) = Some z /\
    0 <= z < N.
Proof.
  intros Hk Hmy Hmy53 Hexact Hr.
  assert (HN : 1 <= N) by (pose proof (pow2_pos k Hk); nia).
  destruct (in_unit_interval_inv r Hr) as [[s ->]|(mx & ex & -> & Hex & Hmx)].
  - exists 0. unfold mul. cbn [SFmul Math_floor integer_value].
    split; [reflexivity|lia].
  - unfold mul. cbn [SFmul xorb].
    destruct (binary_round_aux_spec (mx * my) (ex + - k))
      as (m'' & e'' & e' & He' & He'' & Hm'' & Hle & ->).
    pose proof (product_rounds_below mx my ex k N m'' e'' e'
                  Hex Hmx Hk Hmy Hmy53 He' He'' Hm'' Hle) as Hlt.
    assert (HE : ex + - k <= e'') by lia.
    destruct m'' as [|m|m]; [exists 0; cbn; split; [reflexivity|lia] | | lia].
    assert (Hfin : e'' <= 52).
    { assert (H1 : 2 ^ (e'' - (ex + - k)) < 2 ^ (53 + (k - ex))).
      { rewrite pow2_split by lia.
        pose proof (pow2_pos (e'' - (ex + - k)) ltac:(lia)).
        pose proof (pow2_pos (k - ex) ltac:(lia)).
        pose proof (pow2_pos k Hk). nia. }
      apply Z.pow_lt_mono_r_iff in H1; lia. }
    replace (e'' <=? emax - prec) with true
      by (symmetry; apply Z.leb_le; unfold emax, prec; lia).
    cbn [Math_floor]. destruct (Z.leb_spec 0 e'') as [Hpos|Hneg].
    + exists (Zpos m * 2 ^ e''). cbn [integer_value].
      replace (0 <=? e'') with true by (symmetry; apply Z.leb_le; lia).
      cbn [cond_Zopp]. split; [reflexivity|].
      replace (e'' - (ex + - k)) with (e'' + (k - ex)) in Hlt by lia.
      rewrite pow2_split in Hlt by lia.
      pose proof (pow2_pos (k - ex) ltac:(lia)).
      pose proof (pow2_pos e'' Hpos). nia.
    + cbn [cond_Zopp]. exists (Zpos m / 2 ^ (- e'')).
      assert (Hz : 0 <= Zpos m / 2 ^ (- e'') < N).
      { pose proof (pow2_pos (- e'') ltac:(lia)).
        split; [apply Z.div_pos; lia|].
        apply Z.div_lt_upper_bound; [lia|].
        replace (k - ex) with (- e'' + (e'' - (ex + - k))) in Hlt by lia.
        rewrite pow2_split in Hlt by lia.
        pose proof (pow2_pos (e'' - (ex + - k)) ltac:(lia)). nia. }
      split; [apply Hexact; exact Hz | exact Hz].
Qed.

End Rounding.

(** Integers below 5000 are numbers, exactly. *)
Lemma num_exact_small z :
  0 <= z < 5000 -> integer_value (num z) = Some z.
Proof.
  intros Hz.
  assert (Hall : forallb
            (fun i => match integer_value (num (Z.of_nat i)) with
                      | Some v => v =? Z.of_nat i
                      | None => false
                      end) (seq 0 5000) = true) by (vm_compute; reflexivity).
  rewrite forallb_forall in Hall.
  specialize (Hall (Z.to_nat z)).
  rewrite Z2Nat.id in Hall by lia.
  destruct (integer_value (num z)) as [v|].
  - f_equal. apply Z.eqb_eq. apply Hall. apply in_seq. lia.
  - discriminate Hall. apply in_seq. lia.
Qed.

(** [Math.floor(r * N)] for a draw [r] of [Math.random] and each of the five
    factors of the data provider: an integer from 0 to [N - 1]. *)
Lemma floor_random_below (N : Z) (r : number) :
  In N [500; 80; 60; 5000; 2000] ->
  in_unit_interval r = true ->
  integer_below N (Math_floor (mul r (num N))).
Proof.
  intros HN Hr. unfold integer_below.
  assert (Hex : forall z, 0 <= z < N -> integer_value (num z) = Some z).
  { intros z Hz. apply num_exact_small.
    cbn [In] in HN. lia. }
  cbn [In] in HN.
  destruct HN as [<-|[<-|[<-|[<-|[<-|[]]]]]].
  - change (num 500) with (S754_finite false 8796093022208000 (- (44))).
    apply floor_scaled_unit; auto; try lia; reflexivity.
  - change (num 80) with (S754_finite false 5629499534213120 (- (46))).
    apply floor_scaled_unit; auto; try lia; reflexivity.
  - change (num 60) with (S754_finite false 8444249301319680 (- (47))).
    apply floor_scaled_unit; auto; try lia; reflexivity.
  - change (num 5000) with (S754_finite false 5497558138880000 (- (40))).
    apply floor_scaled_unit; auto; try lia; reflexivity.
  - change (num 2000) with (S754_finite false 8796093022208000 (- (42))).
    apply floor_scaled_unit; auto; try lia; reflexivity.
Qed.

(** ** Conversion of a number to an array length *)

(** A positive integer is its own length, up to the clamp at 2^53 - 1. *)
Lemma ToLength_integer (x : number) (v : Z) :
  integer_value x = Some v -> 0 < v -> ToLength x = Z.min v (2 ^ 53 - 1).
Proof.
  assert (Hclamp : forall z, 0 < z ->
            (if z <=? 0 then 0 else Z.min z (2 ^ 53 - 1))
            = Z.min z (2 ^ 53 - 1)).
  { intros z Hz. destruct (Z.leb_spec z 0); [lia|reflexivity]. }
  unfold ToLength, ToIntegerOrInfinity, integer_value.
  destruct x as [s|s| |s m e]; try discriminate.
  - intros [= <-] Hv. lia.
  - destruct (0 <=? e).
    + intros [= <-] Hv. apply Hclamp, Hv.
    + destruct (Zpos m mod 2 ^ (- e) =? 0); [|discriminate].
      intros [= <-] Hv. apply Hclamp, Hv.
Qed.

(** A number that is at most 0 (also a negative, fractional or infinite one)
    gives the length 0. *)
Lemma ToLength_nonpositive (x : number) :
  leb x (num 0) = true -> ToLength x = 0.
Proof.
  assert (Hclamp : forall z, 0 <= z ->
            (if - z <=? 0 then 0 else Z.min (- z) (2 ^ 53 - 1)) = 0).
  { intros z Hz. destruct (Z.leb_spec (- z) 0); [reflexivity|lia]. }
  change (num 0) with (S754_zero false).
  unfold ToLength, ToIntegerOrInfinity, leb, SFleb.
  destruct x as [s|[|]| |[|] m e]; cbn [SFcompare]; try discriminate;
    intros _; try reflexivity.
  cbn [cond_Zopp]. apply Hclamp.
  destruct (Z.leb_spec 0 e).
  - apply Z.mul_nonneg_nonneg; [lia|apply Z.pow_nonneg; lia].
  - apply Z.div_pos; [lia|]. apply Z.pow_pos_nonneg; lia.
Qed.

(** ** The effect monad and [Array.from] *)

Section HostFacts.
Context {G : Type}.

Lemma bind_normal {A B} (m : JS G A) (f : A -> JS G B) w a w' :
  m w = (Normal a, w') -> bind m f w = f a w'.
Proof. intros H. unfold bind. rewrite H. reflexivity. Qed.

Lemma bind_throw {A B} (m : JS G A) (f : A -> JS G B) w e w' :
  m w = (Throw e, w') -> bind m f w = (Throw e, w').
Proof. intros H. unfold bind. rewrite H. reflexivity. Qed.

(** The loop draws [n] numbers in a row and leaves the rest of the world as
    it was. *)
Lemma Array_from_loop_random (bound : number) (n k : nat) (w : World G) :
  Array_from_loop n k
    (fun _ => r <- Math_random ;; ret (Math_floor (mul r bound))) w
  = (Normal (scaled_draws w (random_next w) n bound), consume n w).
Proof.
  revert k w. induction n as [|n IH]; intros k w.
  - destruct w; reflexivity.
  - cbn [Array_from_loop].
    erewrite bind_normal; [|reflexivity].
    erewrite bind_normal; [|apply IH].
    unfold ret, scaled_draws, consume. cbn. do 2 f_equal. lia.
Qed.

Lemma Array_from_random (bound l : number) (w : World G) :
  ToLength l <= MAX_ARRAY_LENGTH ->
  Array_from l (fun _ => r <- Math_random ;; ret (Math_floor (mul r bound))) w
  = (Normal (scaled_draws w (random_next w) (Z.to_nat (ToLength l)) bound),
     consume (Z.to_nat (ToLength l)) w).
Proof.
  intros Hlen. unfold Array_from.
  destruct (Z.ltb_spec MAX_ARRAY_LENGTH (ToLength l)); [lia|].
  apply Array_from_loop_random.
Qed.

(** Above 2^32 - 1 the array is not constructed and nothing is drawn. *)
Lemma Array_from_too_long {A} (l : number) (mapfn : nat -> JS G A) w :
  MAX_ARRAY_LENGTH < ToLength l ->
  Array_from l mapfn w = (Throw RangeError, w).
Proof.
  intros Hlen. unfold Array_from.
  destruct (Z.ltb_spec MAX_ARRAY_LENGTH (ToLength l)); [reflexivity|lia].
Qed.

Lemma scaled_draws_length (w : World G) start n bound :
  List.length (scaled_draws w start n bound) = n.
Proof. unfold scaled_draws. rewrite length_map, length_seq. reflexivity. Qed.

Lemma scaled_draws_below (w : World G) start n (N : Z) :
  In N [500; 80; 60; 5000; 2000] ->
  (forall i, in_unit_interval (random_source w i) = true) ->
  Forall (integer_below N) (scaled_draws w start n (num N)).
Proof.
  intros HN Hsrc. unfold scaled_draws. apply Forall_forall.
  intros x Hx. apply in_map_iff in Hx. destruct Hx as (i & <- & _).
  apply floor_random_below; auto.
Qed.

End HostFacts.

(** One step of a computation that ends normally: [tac] proves how. *)
Ltac js_normal tac := erewrite bind_normal; [cbv beta | tac].

(** The draws of the sample generator are in the range of [Math.random]. *)
Lemma sample_source_in_range (i : nat) :
  in_unit_interval (sample_source i) = true.
Proof.
  unfold sample_source. destruct (i mod 3)%nat as [|[|k]]; reflexivity.
Qed.

(** ** [finalUI.ts]: the data provider *)

Section FinalUIFacts.
Import FinalUI.

(** Every call ends in one of two ways.  When the length asked for exceeds
    what an array can hold, the first [Array.from] throws: the promise is
    rejected and only the log line was written.  Otherwise the promise is
    fulfilled with a record whose weekly sequences are made of consecutive
    draws, five times the length in all. *)
Lemma fetch_cases (owner repo : string) (weeks : number)
  (w : World ComparisonState) :
  let n := Z.to_nat (ToLength weeks) in
  let line := [Str "Executing GraphQL query for "; Str owner; Str "/";
               Str repo; Str " over "; Num weeks; Str " weeks."] in
  (MAX_ARRAY_LENGTH < ToLength weeks /\
   fetchAllDataViaGraphQL owner repo weeks w =
     (Normal (Rejected RangeError),
      mkWorld (random_source w) (random_next w) (clock w)
              (console w ++ [line]) (globals w)))
  \/
  (ToLength weeks <= MAX_ARRAY_LENGTH /\
   exists p,
     fetchAllDataViaGraphQL owner repo weeks w =
       (Normal (Fulfilled p),
        mkWorld (random_source w)
                (n + (n + (n + (n + (n + random_next w)))))
                (clock w) (console w ++ [line]) (globals w)) /\
     fullName p = (owner ++ "/" ++ repo)%string /\
     weeklyCommits p = scaled_draws w (random_next w) n (num 500) /\
     weeklyPrOpened p = scaled_draws w (n + random_next w) n (num 80) /\
     weeklyPrMerged p =
       scaled_draws w (n + (n + random_next w)) n (num 60) /\
     weeklyAdditions p =
       scaled_draws w (n + (n + (n + random_next w))) n (num 5000) /\
     weeklyDeletions p =
       scaled_draws w (n + (n + (n + (n + random_next w)))) n (num 2000) /\
     map percentage (languageBreakdown p) = [num 70; num 20; num 10] /\
     totalStoryPoints (teamVelocity p) = num 50 /\
     completedStoryPoints (teamVelocity p) = num 35 /\
     rateLimitRemaining (apiStatus p) = num 4985 /\
     isRateLimited (apiStatus p) = false).
Proof.
  intros n line.
  destruct (Z.ltb_spec MAX_ARRAY_LENGTH (ToLength weeks)) as [Hlong|Hok].
  - left. split; [exact Hlong|].
    unfold fetchAllDataViaGraphQL, async.
    js_normal reflexivity.
    erewrite bind_throw; [reflexivity|].
    apply Array_from_too_long; exact Hlong.
  - right. split; [exact Hok|].
    unfold fetchAllDataViaGraphQL, async.
    js_normal reflexivity.
    do 5 (js_normal ltac:(apply Array_from_random; exact Hok)).
    js_normal reflexivity.
    unfold ret. eexists. split; [reflexivity|].
    cbn [fullName weeklyCommits weeklyPrOpened weeklyPrMerged weeklyAdditions
         weeklyDeletions languageBreakdown teamVelocity apiStatus
         totalStoryPoints completedStoryPoints rateLimitRemaining
         isRateLimited map percentage].
    repeat split; reflexivity.
Qed.

(** What a fulfilled promise holds. *)
Lemma produces_inv (owner repo : string) (weeks : number)
  (w : World ComparisonState) (p : ProjectData) :
  produces owner repo weeks w p ->
  let n := Z.to_nat (ToLength weeks) in
  ToLength weeks <= MAX_ARRAY_LENGTH /\
  fullName p = (owner ++ "/" ++ repo)%string /\
  weeklyCommits p = scaled_draws w (random_next w) n (num 500) /\
  weeklyPrOpened p = scaled_draws w (n + random_next w) n (num 80) /\
  weeklyPrMerged p = scaled_draws w (n + (n + random_next w)) n (num 60) /\
  weeklyAdditions p =
    scaled_draws w (n + (n + (n + random_next w))) n (num 5000) /\
  weeklyDeletions p =
    scaled_draws w (n + (n + (n + (n + random_next w)))) n (num 2000) /\
  map percentage (languageBreakdown p) = [num 70; num 20; num 10] /\
  totalStoryPoints (teamVelocity p) = num 50 /\
  completedStoryPoints (teamVelocity p) = num 35 /\
  rateLimitRemaining (apiStatus p) = num 4985 /\
  isRateLimited (apiStatus p) = false.
Proof.
  intros Hp. unfold produces in Hp. cbv zeta.
  pose proof (fetch_cases owner repo weeks w) as Hcases. cbv zeta in Hcases.
  destruct Hcases as [[_ Hrej]|[Hok (q & Hq & Hfacts)]].
  - rewrite Hrej in Hp. discriminate Hp.
  - rewrite Hq in Hp. cbn [fst] in Hp. injection Hp as <-.
    split; [exact Hok | exact Hfacts].
Qed.

(** A length that an array can have is served. *)
Lemma fetch_total (owner repo : string) (weeks : number)
  (w : World ComparisonState) :
  ToLength weeks <= MAX_ARRAY_LENGTH -> exists p, produces owner repo weeks w p.
Proof.
  intros Hok.
  pose proof (fetch_cases owner repo weeks w) as Hcases. cbv zeta in Hcases.
  destruct Hcases as [[Hlong _]|[_ (p & Hp & _)]].
  - lia.
  - exists p. unfold produces. rewrite Hp. reflexivity.
Qed.

(** *** Sample runs *)

(** Lengths: fractions are truncated, NaN and whatever is not positive give
    0, infinity is clamped. *)
Example ToLength_samples :
  ToLength (num 12) = 12 /\ ToLength (dec 25 10) = 2 /\
  ToLength (num (-3)) = 0 /\ ToLength (dec (-5) 10) = 0 /\
  ToLength NaN = 0 /\ ToLength Infinity = 2 ^ 53 - 1.
Proof. repeat split; reflexivity. Qed.

(** Three weeks in the sample world: the draws 0.1, 0.5 and the largest
    number below 1, scaled by each factor in turn. *)
Example fetch_three_weeks :
  exists p,
    produces "octocat" "hello-world" (num 3)
             (sample_world comparisonState_init) p /\
    map integer_value (weeklyCommits p) = [Some 50; Some 250; Some 499] /\
    map integer_value (weeklyPrOpened p) = [Some 8; Some 40; Some 79] /\
    map integer_value (weeklyPrMerged p) = [Some 6; Some 30; Some 59] /\
    map integer_value (weeklyAdditions p)
    = [Some 500; Some 2500; Some 4999] /\
    map integer_value (weeklyDeletions p)
    = [Some 200; Some 1000; Some 1999] /\
    integer_value (resetTime (apiStatus p)) = Some 1700003600.
Proof.
  eexists. split; [unfold produces; vm_compute; reflexivity|].
  vm_compute. repeat split; reflexivity.
Qed.

(** A length that no array can have: the promise is rejected. *)
Example fetch_infinitely_many_weeks :
  fst (fetchAllDataViaGraphQL "octocat" "hello-world" Infinity
         (sample_world comparisonState_init))
  = Normal (Rejected RangeError).
Proof. reflexivity. Qed.

(** *** The weekly sequences *)

(** C1, as the specification states it, fails for the positive integer 2^32:
    the array constructor refuses the length, the promise is rejected with a
    RangeError and no [ProjectData] is returned. *)
Lemma weekly_length_fails_at_4294967296 :
  integer_value (num 4294967296) = Some 4294967296 /\
  0 < 4294967296 /\
  fst (fetchAllDataViaGraphQL "octocat" "hello-world" (num 4294967296)
         (sample_world comparisonState_init))
  = Normal (Rejected RangeError) /\
  ~ (exists p,
       produces "octocat" "hello-world" (num 4294967296)
                (sample_world comparisonState_init) p /\
       has_weekly_length p 4294967296).
Proof.
  assert (Hrej : fst (fetchAllDataViaGraphQL "octocat" "hello-world"
                        (num 4294967296) (sample_world comparisonState_init))
                 = Normal (Rejected RangeError)).
  { pose proof (fetch_cases "octocat" "hello-world" (num 4294967296)
                  (sample_world comparisonState_init)) as Hcases.
    cbv zeta in Hcases. destruct Hcases as [[_ Hrej]|[Hok _]].
    - rewrite Hrej. reflexivity.
    - change (ToLength (num 4294967296)) with 4294967296 in Hok.
      unfold MAX_ARRAY_LENGTH in Hok. lia. }
  repeat split; try reflexivity; try exact Hrej.
  intros (p & Hp & _). unfold produces in Hp. rewrite Hrej in Hp.
  discriminate Hp.
Qed.

(** C1 (amended): for every positive integer [v] up to 2^32 - 1, every owner,
    repository and world, the call with [weeks = v] returns a [ProjectData]
    whose five weekly sequences have exactly [v] elements. *)
Theorem weekly_sequences_have_requested_length
  (owner repo : string) (weeks : number) (v : Z) (w : World ComparisonState) :
  integer_value weeks = Some v ->
  0 < v <= 4294967295 ->
  exists p, produces owner repo weeks w p /\ has_weekly_length p v.
Proof.
  intros Hint Hv.
  assert (Hlen : ToLength weeks = v).
  { rewrite (ToLength_integer weeks v Hint) by lia. lia. }
  assert (Hok : ToLength weeks <= MAX_ARRAY_LENGTH)
    by (unfold MAX_ARRAY_LENGTH; lia).
  destruct (fetch_total owner repo weeks w Hok) as [p Hp].
  exists p. split; [exact Hp|].
  pose proof (produces_inv owner repo weeks w p Hp) as Hinv.
  cbv zeta in Hinv. destruct Hinv as (_ & _ & H1 & H2 & H3 & H4 & H5 & _).
  unfold has_weekly_length.
  rewrite H1, H2, H3, H4, H5, !scaled_draws_length, Hlen.
  rewrite Z2Nat.id by lia. repeat split; reflexivity.
Qed.

(** Twelve weeks in the sample world. *)
Lemma weekly_sequences_have_requested_length_witness :
  exists p,
    produces "octocat" "hello-world" (num 12)
             (sample_world comparisonState_init) p /\
    has_weekly_length p 12.
Proof.
  apply (weekly_sequences_have_requested_length
           "octocat" "hello-world" (num 12) 12
           (sample_world comparisonState_init)).
  - reflexivity.
  - lia.
Defined.

(** C10: for every [weeks] that is at most 0, negative values included, the
    call raises nothing and its promise is not rejected: it is fulfilled with
    a [ProjectData] whose five weekly sequences are empty. *)
Theorem nonpositive_weeks_give_empty_sequences
  (owner repo : string) (weeks : number) (w : World ComparisonState) :
  leb weeks (num 0) = true ->
  exists p,
    fst (fetchAllDataViaGraphQL owner repo weeks w) = Normal (Fulfilled p) /\
    weeklyCommits p = [] /\ weeklyPrOpened p = [] /\ weeklyPrMerged p = [] /\
    weeklyAdditions p = [] /\ weeklyDeletions p = [].
Proof.
  intros Hle. pose proof (ToLength_nonpositive weeks Hle) as Hlen.
  assert (Hok : ToLength weeks <= MAX_ARRAY_LENGTH)
    by (rewrite Hlen; unfold MAX_ARRAY_LENGTH; lia).
  destruct (fetch_total owner repo weeks w Hok) as [p Hp].
  exists p. split; [exact Hp|].
  pose proof (produces_inv owner repo weeks w p Hp) as Hinv.
  cbv zeta in Hinv. destruct Hinv as (_ & _ & H1 & H2 & H3 & H4 & H5 & _).
  rewrite H1, H2, H3, H4, H5, Hlen. repeat split; reflexivity.
Qed.

(** Minus five weeks in the sample world. *)
Lemma nonpositive_weeks_give_empty_sequences_witness :
  exists p,
    fst (fetchAllDataViaGraphQL "octocat" "hello-world" (num (-5))
           (sample_world comparisonState_init)) = Normal (Fulfilled p) /\
    weeklyCommits p = [] /\ weeklyPrOpened p = [] /\ weeklyPrMerged p = [] /\
    weeklyAdditions p = [] /\ weeklyDeletions p = [].
Proof.
  apply (nonpositive_weeks_give_empty_sequences
           "octocat" "hello-world" (num (-5))
           (sample_world comparisonState_init)).
  reflexivity.
Defined.

(** C4: whatever the generator draws within the range of [Math.random], and
    for every owner, repository and [weeks], each element of the weekly
    sequences returned is an integer that is at least 0 and strictly below
    the bound of its series: 500 commits, 80 pull requests opened, 60 merged,
    5000 additions, 2000 deletions. *)
Theorem weekly_values_within_bounds
  (owner repo : string) (weeks : number) (w : World ComparisonState)
  (p : ProjectData) :
  (forall i, in_unit_interval (random_source w i) = true) ->
  produces owner repo weeks w p ->
  Forall (integer_below 500) (weeklyCommits p) /\
  Forall (integer_below 80) (weeklyPrOpened p) /\
  Forall (integer_below 60) (weeklyPrMerged p) /\
  Forall (integer_below 5000) (weeklyAdditions p) /\
  Forall (integer_below 2000) (weeklyDeletions p).
Proof.
  intros Hsrc Hp.
  pose proof (produces_inv owner repo weeks w p Hp) as Hinv.
  cbv zeta in Hinv. destruct Hinv as (_ & _ & H1 & H2 & H3 & H4 & H5 & _).
  rewrite H1, H2, H3, H4, H5.
  repeat split; apply scaled_draws_below; cbn [In]; auto 10.
Qed.

(** Three weeks in the sample world, whose generator reaches the largest
    draw there is. *)
Lemma weekly_values_within_bounds_witness :
  exists p,
    produces "octocat" "hello-world" (num 3)
             (sample_world comparisonState_init) p /\
    Forall (integer_below 500) (weeklyCommits p) /\
    Forall (integer_below 80) (weeklyPrOpened p) /\
    Forall (integer_below 60) (weeklyPrMerged p) /\
    Forall (integer_below 5000) (weeklyAdditions p) /\
    Forall (integer_below 2000) (weeklyDeletions p).
Proof.
  eexists. split.
  - unfold produces. vm_compute. reflexivity.
  - apply (weekly_values_within_bounds
             "octocat" "hello-world" (num 3)
             (sample_world comparisonState_init)).
    + exact sample_source_in_range.
    + unfold produces. vm_compute. reflexivity.
Defined.

(** *** The fields with fixed values *)

(** C5: for all strings [owner] and [repo], the [ProjectData] returned has
    [fullName] equal to [owner], a slash and [repo] (and [weeklyCommits] of
    the length asked for); one is returned whenever an array can have that
    length.  In particular [fetch("octocat", "hello-world", 12)] returns
    [fullName === "octocat/hello-world"] and [weeklyCommits.length === 12]:
    the witness below. *)
Theorem fullName_is_owner_slash_repo
  (owner repo : string) (weeks : number) (w : World ComparisonState) :
  ToLength weeks <= MAX_ARRAY_LENGTH ->
  (exists p, produces owner repo weeks w p) /\
  (forall p,
     produces owner repo weeks w p ->
     fullName p = (owner ++ "/" ++ repo)%string /\
     List.length (weeklyCommits p) = Z.to_nat (ToLength weeks)).
Proof.
  intros Hok. split; [exact (fetch_total owner repo weeks w Hok)|].
  intros p Hp. pose proof (produces_inv owner repo weeks w p Hp) as Hinv.
  cbv zeta in Hinv. destruct Hinv as (_ & Hname & H1 & _).
  split; [exact Hname|]. rewrite H1. apply scaled_draws_length.
Qed.

Lemma fullName_is_owner_slash_repo_witness :
  (exists p,
     produces "octocat" "hello-world" (num 12)
              (sample_world comparisonState_init) p) /\
  (forall p,
     produces "octocat" "hello-world" (num 12)
              (sample_world comparisonState_init) p ->
     fullName p = "octocat/hello-world" /\
     List.length (weeklyCommits p) = 12%nat).
Proof.
  apply (fullName_is_owner_slash_repo
           "octocat" "hello-world" (num 12)
           (sample_world comparisonState_init)).
  unfold MAX_ARRAY_LENGTH. change (ToLength (num 12)) with 12. lia.
Defined.

(** C6: in every [ProjectData] produced, [apiStatus.isRateLimited] is true
    if and only if [apiStatus.rateLimitRemaining] equals 0. *)
Theorem isRateLimited_iff_nothing_remaining
  (owner repo : string) (weeks : number) (w : World ComparisonState)
  (p : ProjectData) :
  produces owner repo weeks w p ->
  isRateLimited (apiStatus p) = true <->
  eqb (rateLimitRemaining (apiStatus p)) (num 0) = true.
Proof.
  intros Hp. pose proof (produces_inv owner repo weeks w p Hp) as Hinv.
  cbv zeta in Hinv.
  destruct Hinv as (_ & _ & _ & _ & _ & _ & _ & _ & _ & _ & Hrem & Hlim).
  rewrite Hrem, Hlim.
  change (eqb (num 4985) (num 0)) with false.
  split; intros H; discriminate H.
Qed.

(** The data of the sample run. *)
Lemma isRateLimited_iff_nothing_remaining_witness :
  exists p,
    produces "octocat" "hello-world" (num 12)
             (sample_world comparisonState_init) p /\
    (isRateLimited (apiStatus p) = true <->
     eqb (rateLimitRemaining (apiStatus p)) (num 0) = true).
Proof.
  eexists. split.
  - unfold produces. vm_compute. reflexivity.
  - apply (isRateLimited_iff_nothing_remaining
             "octocat" "hello-world" (num 12)
             (sample_world comparisonState_init)).
    unfold produces. vm_compute. reflexivity.
Defined.

(** C7: in every [ProjectData] produced, [teamVelocity.completedStoryPoints]
    is at most [teamVelocity.totalStoryPoints]. *)
Theorem completed_story_points_at_most_total
  (owner repo : string) (weeks : number) (w : World ComparisonState)
  (p : ProjectData) :
  produces owner repo weeks w p ->
  leb (completedStoryPoints (teamVelocity p))
      (totalStoryPoints (teamVelocity p)) = true.
Proof.
  intros Hp. pose proof (produces_inv owner repo weeks w p Hp) as Hinv.
  cbv zeta in Hinv.
  destruct Hinv as (_ & _ & _ & _ & _ & _ & _ & _ & Htot & Hdone & _).
  rewrite Htot, Hdone. reflexivity.
Qed.

(** The data of the sample run. *)
Lemma completed_story_points_at_most_total_witness :
  exists p,
    produces "octocat" "hello-world" (num 12)
             (sample_world comparisonState_init) p /\
    leb (completedStoryPoints (teamVelocity p))
        (totalStoryPoints (teamVelocity p)) = true.
Proof.
  eexists. split.
  - unfold produces. vm_compute. reflexivity.
  - apply (completed_story_points_at_most_total
             "octocat" "hello-world" (num 12)
             (sample_world comparisonState_init)).
    unfold produces. vm_compute. reflexivity.
Defined.

(** C8: in every [ProjectData] produced, every element of
    [languageBreakdown] has a percentage from 0 to 100. *)
Theorem language_percentages_within_0_100
  (owner repo : string) (weeks : number) (w : World ComparisonState)
  (p : ProjectData) :
  produces owner repo weeks w p ->
  Forall (fun l => leb (num 0) (percentage l) = true /\
                   leb (percentage l) (num 100) = true)
         (languageBreakdown p).
Proof.
  intros Hp. pose proof (produces_inv owner repo weeks w p Hp) as Hinv.
  cbv zeta in Hinv.
  destruct Hinv as (_ & _ & _ & _ & _ & _ & _ & Hlang & _).
  apply (Forall_map percentage
           (fun x => leb (num 0) x = true /\ leb x (num 100) = true)).
  rewrite Hlang. repeat constructor.
Qed.

(** The data of the sample run. *)
Lemma language_percentages_within_0_100_witness :
  exists p,
    produces "octocat" "hello-world" (num 12)
             (sample_world comparisonState_init) p /\
    Forall (fun l => leb (num 0) (percentage l) = true /\
                     leb (percentage l) (num 100) = true)
           (languageBreakdown p).
Proof.
  eexists. split.
  - unfold produces. vm_compute. reflexivity.
  - apply (language_percentages_within_0_100
             "octocat" "hello-world" (num 12)
             (sample_world comparisonState_init)).
    unfold produces. vm_compute. reflexivity.
Defined.

(** *** Effects of the data provider *)

(** C9: for every input the call leaves the program's state as it was: the
    global [comparisonState] (its [repoA], [repoB] and [comparisonKey]) is the
    same before and after.  Of the host, the clock is untouched, the console
    has the one diagnostic line more, and the generator has advanced by the
    draws taken. *)
Theorem fetch_leaves_program_state_unchanged
  (owner repo : string) (weeks : number) (w : World ComparisonState) :
  comparisonState (snd (fetchAllDataViaGraphQL owner repo weeks w))
  = comparisonState w /\
  exists k,
    snd (fetchAllDataViaGraphQL owner repo weeks w)
    = mkWorld (random_source w) (k + random_next w) (clock w)
        (console w ++
         [[Str "Executing GraphQL query for "; Str owner; Str "/";
           Str repo; Str " over "; Num weeks; Str " weeks."]])
        (globals w).
Proof.
  pose proof (fetch_cases owner repo weeks w) as Hcases. cbv zeta in Hcases.
  destruct Hcases as [[_ Hrej]|[_ (p & Hp & _)]].
  - rewrite Hrej. split; [reflexivity|]. exists O. reflexivity.
  - rewrite Hp. split; [reflexivity|].
    exists (5 * Z.to_nat (ToLength weeks))%nat. cbn [snd]. f_equal. lia.
Qed.

(** ** [finalUI.ts]: the comparison view *)

(** C2: when [repoA] is null or [repoB] is null, [renderComparisonChart]
    renders nothing, raises nothing and returns normally, for every key: the
    world after the call is the world before it. *)
Theorem renderComparisonChart_without_both_repos
  (key : ProjectDataKey) (w : World ComparisonState) :
  repoA (comparisonState w) = None \/ repoB (comparisonState w) = None ->
  renderComparisonChart key w = (Normal tt, w).
Proof.
  unfold comparisonState, renderComparisonChart, bind, get_globals, ret.
  intros [H|H]; rewrite H; cbn [truthy negb orb]; [reflexivity|].
  rewrite orb_true_r. reflexivity.
Qed.

(** The state the module starts in: both repositories are null. *)
Lemma renderComparisonChart_without_both_repos_witness :
  renderComparisonChart key_weeklyCommits (sample_world comparisonState_init)
  = (Normal tt, sample_world comparisonState_init).
Proof.
  apply (renderComparisonChart_without_both_repos
           key_weeklyCommits (sample_world comparisonState_init)).
  left. reflexivity.
Defined.

(** With both repositories present the chart is rendered: the line that
    stands for it reaches the console. *)
Lemma renderComparisonChart_with_both_repos
  (key : ProjectDataKey) (w : World ComparisonState) (a b : ProjectData) :
  repoA (comparisonState w) = Some a -> repoB (comparisonState w) = Some b ->
  renderComparisonChart key w
  = (Normal tt,
     mkWorld (random_source w) (random_next w) (clock w)
       (console w ++ [[Str "Rendering comparison chart for metric: ";
                       Str (key_name key)]])
       (globals w)).
Proof.
  unfold comparisonState, renderComparisonChart, bind, get_globals.
  intros Ha Hb. rewrite Ha, Hb. reflexivity.
Qed.

(** Each literal of the type of [comparisonKey] names a field. *)
Lemma comparisonKey_name_is_field (k : ComparisonKey) :
  is_ProjectData_field (comparisonKey_name k) = true.
Proof. destruct k; reflexivity. Qed.

Lemma comparisonKey_of_literal_name (s : string) (k : ComparisonKey) :
  comparisonKey_of_literal s = Some k -> comparisonKey_name k = s.
Proof.
  unfold comparisonKey_of_literal.
  repeat match goal with
         | |- context [String.eqb s ?l] =>
             destruct (String.eqb_spec s l) as [->|_];
             [intros [= <-]; reflexivity|]
         end.
  discriminate.
Qed.

(** The provider and the renderer leave the global variables alone. *)
Lemma fetch_keeps_globals (owner repo : string) (weeks : number)
  (w : World ComparisonState) :
  globals (snd (fetchAllDataViaGraphQL owner repo weeks w)) = globals w.
Proof.
  pose proof (fetch_cases owner repo weeks w) as Hcases.
  cbv zeta in Hcases.
  destruct Hcases as [[_ Hrej]|[_ (p & Hp & _)]].
  - rewrite Hrej. reflexivity.
  - rewrite Hp. reflexivity.
Qed.

Lemma render_keeps_globals (key : ProjectDataKey)
  (w : World ComparisonState) :
  globals (snd (renderComparisonChart key w)) = globals w.
Proof.
  unfold renderComparisonChart, bind, get_globals, ret, console_log.
  destruct (negb (truthy (repoA (globals w)))
            || negb (truthy (repoB (globals w)))); reflexivity.
Qed.

(** A step that the type checker admits keeps a key that names a field. *)
Lemma well_typed_step_keeps_field (a : Action)
  (w : World ComparisonState) :
  is_ProjectData_field (comparisonKey (globals w)) = true ->
  well_typed a = true ->
  is_ProjectData_field (comparisonKey (globals (perform a w))) = true.
Proof.
  intros Hfield Hty.
  destruct a as [o r wk|key| |v|v|value]; cbn [perform].
  - rewrite fetch_keeps_globals. exact Hfield.
  - rewrite render_keeps_globals. exact Hfield.
  - exact Hfield.
  - exact Hfield.
  - exact Hfield.
  - cbn [set_globals snd globals comparisonKey]. cbn [well_typed] in Hty.
    destruct (comparisonKey_of_literal value) as [k|] eqn:Hk;
      [|discriminate Hty].
    apply comparisonKey_of_literal_name in Hk. subst value.
    apply comparisonKey_name_is_field.
Qed.

(** C3, as the specification states it, fails: nothing rejects a value
    that names no field.  The execution below assigns ["commitCount"], which
    is no field of [ProjectData]; the assignment is performed, the key holds
    that value afterwards, and the renderer called next returns normally. *)
Lemma comparisonKey_stores_a_non_field :
  is_ProjectData_field "commitCount" = false /\
  comparisonKey
    (comparisonState
       (run [CallFetch "octocat" "hello-world" (num 2);
             AssignComparisonKey "commitCount"]
            (sample_world comparisonState_init)))
  = "commitCount" /\
  fst (renderComparisonChart key_weeklyCommits
         (run [CallFetch "octocat" "hello-world" (num 2);
               AssignComparisonKey "commitCount"]
              (sample_world comparisonState_init)))
  = Normal tt.
Proof. repeat split; vm_compute; reflexivity. Qed.

(** C3 (amended): what constrains [comparisonKey] is its declared type, on
    the program text.  Every literal of that type names a field of
    [ProjectData] and no function of the file writes the key, so in every
    execution of a program that the type checker admits, started with a key
    that names a field (the initial ["weeklyCommits"] does), the key names a
    field at the end. *)
Theorem comparisonKey_names_a_field_when_well_typed
  (actions : list Action) (w0 : World ComparisonState) :
  is_ProjectData_field (comparisonKey (comparisonState w0)) = true ->
  forallb well_typed actions = true ->
  is_ProjectData_field
    (comparisonKey (comparisonState (run actions w0))) = true.
Proof.
  unfold comparisonState.
  revert w0. induction actions as [|a rest IH]; intros w0 Hfield Hty.
  - exact Hfield.
  - cbn [forallb] in Hty. apply andb_true_iff in Hty.
    destruct Hty as [Ha Hrest]. cbn [run].
    apply IH; [|exact Hrest].
    apply well_typed_step_keeps_field; assumption.
Qed.

(** The sample session, from the initial state. *)
Lemma comparisonKey_names_a_field_when_well_typed_witness :
  is_ProjectData_field
    (comparisonKey
       (comparisonState
          (run sample_actions (sample_world comparisonState_init)))) = true.
Proof.
  apply (comparisonKey_names_a_field_when_well_typed
           sample_actions (sample_world comparisonState_init)).
  - reflexivity.
  - reflexivity.
Defined.

End FinalUIFacts.

(** ** The earlier draft: the same facts

    The draft has the same provider and the same comparison view over its
    smaller records; the properties that do not concern the records it lacks
    hold of it by the same proofs. *)

Section DraftFacts.
Import Part000.

(** Every call ends in one of two ways.  When the length asked for exceeds
    what an array can hold, the first [Array.from] throws: the promise is
    rejected and only the log line was written.  Otherwise the promise is
    fulfilled with a record whose weekly sequences are made of consecutive
    draws, five times the length in all. *)
Lemma draft_fetch_cases (owner repo : string) (weeks : number)
  (w : World ComparisonState) :
  let n := Z.to_nat (ToLength weeks) in
  let line := [Str "Executing GraphQL query for "; Str owner; Str "/";
               Str repo; Str " over "; Num weeks; Str " weeks."] in
  (MAX_ARRAY_LENGTH < ToLength weeks /\
   fetchAllDataViaGraphQL owner repo weeks w =
     (Normal (Rejected RangeError),
      mkWorld (random_source w) (random_next w) (clock w)
              (console w ++ [line]) (globals w)))
  \/
  (ToLength weeks <= MAX_ARRAY_LENGTH /\
   exists p,
     fetchAllDataViaGraphQL owner repo weeks w =
       (Normal (Fulfilled p),
        mkWorld (random_source w)
                (n + (n + (n + (n + (n + random_next w)))))
                (clock w) (console w ++ [line]) (globals w)) /\
     fullName p = (owner ++ "/" ++ repo)%string /\
     weeklyCommits p = scaled_draws w (random_next w) n (num 500) /\
     weeklyPrOpened p = scaled_draws w (n + random_next w) n (num 80) /\
     weeklyPrMerged p =
       scaled_draws w (n + (n + random_next w)) n (num 60) /\
     weeklyAdditions p =
       scaled_draws w (n + (n + (n + random_next w))) n (num 5000) /\
     weeklyDeletions p =
       scaled_draws w (n + (n + (n + (n + random_next w)))) n (num 2000) /\
     map percentage (languageBreakdown p) = [num 70; num 20; num 10]).
Proof.
  intros n line.
  destruct (Z.ltb_spec MAX_ARRAY_LENGTH (ToLength weeks)) as [Hlong|Hok].
  - left. split; [exact Hlong|].
    unfold fetchAllDataViaGraphQL, async.
    js_normal reflexivity.
    erewrite bind_throw; [reflexivity|].
    apply Array_from_too_long; exact Hlong.
  - right. split; [exact Hok|].
    unfold fetchAllDataViaGraphQL, async.
    js_normal reflexivity.
    do 5 (js_normal ltac:(apply Array_from_random; exact Hok)).
    unfold ret. eexists. split; [reflexivity|].
    cbn [fullName weeklyCommits weeklyPrOpened weeklyPrMerged weeklyAdditions
         weeklyDeletions languageBreakdown map percentage].
    repeat split; reflexivity.
Qed.

(** What a fulfilled promise holds. *)
Lemma draft_produces_inv (owner repo : string) (weeks : number)
  (w : World ComparisonState) (p : ProjectData) :
  produces owner repo weeks w p ->
  let n := Z.to_nat (ToLength weeks) in
  ToLength weeks <= MAX_ARRAY_LENGTH /\
  fullName p = (owner ++ "/" ++ repo)%string /\
  weeklyCommits p = scaled_draws w (random_next w) n (num 500) /\
  weeklyPrOpened p = scaled_draws w (n + random_next w) n (num 80) /\
  weeklyPrMerged p = scaled_draws w (n + (n + random_next w)) n (num 60) /\
  weeklyAdditions p =
    scaled_draws w (n + (n + (n + random_next w))) n (num 5000) /\
  weeklyDeletions p =
    scaled_draws w (n + (n + (n + (n + random_next w)))) n (num 2000) /\
  map percentage (languageBreakdown p) = [num 70; num 20; num 10].
Proof.
  intros Hp. unfold produces in Hp. cbv zeta.
  pose proof (draft_fetch_cases owner repo weeks w) as Hcases.
  cbv zeta in Hcases.
  destruct Hcases as [[_ Hrej]|[Hok (q & Hq & Hfacts)]].
  - rewrite Hrej in Hp. discriminate Hp.
  - rewrite Hq in Hp. cbn [fst] in Hp. injection Hp as <-.
    split; [exact Hok | exact Hfacts].
Qed.

(** A length that an array can have is served. *)
Lemma draft_fetch_total (owner repo : string) (weeks : number)
  (w : World ComparisonState) :
  ToLength weeks <= MAX_ARRAY_LENGTH -> exists p, produces owner repo weeks w p.
Proof.
  intros Hok.
  pose proof (draft_fetch_cases owner repo weeks w) as Hcases.
  cbv zeta in Hcases.
  destruct Hcases as [[Hlong _]|[_ (p & Hp & _)]].
  - lia.
  - exists p. unfold produces. rewrite Hp. reflexivity.
Qed.

(** *** The weekly sequences *)

(** In the draft too, a positive integer [v] up to 2^32 - 1 gives five
    weekly sequences of [v] elements each. *)
Lemma draft_weekly_sequences_have_requested_length
  (owner repo : string) (weeks : number) (v : Z) (w : World ComparisonState) :
  integer_value weeks = Some v ->
  0 < v <= 4294967295 ->
  exists p, produces owner repo weeks w p /\ has_weekly_length p v.
Proof.
  intros Hint Hv.
  assert (Hlen : ToLength weeks = v).
  { rewrite (ToLength_integer weeks v Hint) by lia. lia. }
  assert (Hok : ToLength weeks <= MAX_ARRAY_LENGTH)
    by (unfold MAX_ARRAY_LENGTH; lia).
  destruct (draft_fetch_total owner repo weeks w Hok) as [p Hp].
  exists p. split; [exact Hp|].
  pose proof (draft_produces_inv owner repo weeks w p Hp) as Hinv.
  cbv zeta in Hinv. destruct Hinv as (_ & _ & H1 & H2 & H3 & H4 & H5 & _).
  unfold has_weekly_length.
  rewrite H1, H2, H3, H4, H5, !scaled_draws_length, Hlen.
  rewrite Z2Nat.id by lia. repeat split; reflexivity.
Qed.

(** In the draft too, a [weeks] that is at most 0 gives five empty weekly
    sequences and no rejection. *)
Lemma draft_nonpositive_weeks_give_empty_sequences
  (owner repo : string) (weeks : number) (w : World ComparisonState) :
  leb weeks (num 0) = true ->
  exists p,
    fst (fetchAllDataViaGraphQL owner repo weeks w) = Normal (Fulfilled p) /\
    weeklyCommits p = [] /\ weeklyPrOpened p = [] /\ weeklyPrMerged p = [] /\
    weeklyAdditions p = [] /\ weeklyDeletions p = [].
Proof.
  intros Hle. pose proof (ToLength_nonpositive weeks Hle) as Hlen.
  assert (Hok : ToLength weeks <= MAX_ARRAY_LENGTH)
    by (rewrite Hlen; unfold MAX_ARRAY_LENGTH; lia).
  destruct (draft_fetch_total owner repo weeks w Hok) as [p Hp].
  exists p. split; [exact Hp|].
  pose proof (draft_produces_inv owner repo weeks w p Hp) as Hinv.
  cbv zeta in Hinv. destruct Hinv as (_ & _ & H1 & H2 & H3 & H4 & H5 & _).
  rewrite H1, H2, H3, H4, H5, Hlen. repeat split; reflexivity.
Qed.

(** In the draft too, the elements of the weekly sequences are integers
    from 0 to the bound of their series, the bound excluded. *)
Lemma draft_weekly_values_within_bounds
  (owner repo : string) (weeks : number) (w : World ComparisonState)
  (p : ProjectData) :
  (forall i, in_unit_interval (random_source w i) = true) ->
  produces owner repo weeks w p ->
  Forall (integer_below 500) (weeklyCommits p) /\
  Forall (integer_below 80) (weeklyPrOpened p) /\
  Forall (integer_below 60) (weeklyPrMerged p) /\
  Forall (integer_below 5000) (weeklyAdditions p) /\
  Forall (integer_below 2000) (weeklyDeletions p).
Proof.
  intros Hsrc Hp.
  pose proof (draft_produces_inv owner repo weeks w p Hp) as Hinv.
  cbv zeta in Hinv. destruct Hinv as (_ & _ & H1 & H2 & H3 & H4 & H5 & _).
  rewrite H1, H2, H3, H4, H5.
  repeat split; apply scaled_draws_below; cbn [In]; auto 10.
Qed.

(** *** The fields with fixed values *)

(** In the draft too, [fullName] is [owner], a slash and [repo]. *)
Lemma draft_fullName_is_owner_slash_repo
  (owner repo : string) (weeks : number) (w : World ComparisonState) :
  ToLength weeks <= MAX_ARRAY_LENGTH ->
  (exists p, produces owner repo weeks w p) /\
  (forall p,
     produces owner repo weeks w p ->
     fullName p = (owner ++ "/" ++ repo)%string /\
     List.length (weeklyCommits p) = Z.to_nat (ToLength weeks)).
Proof.
  intros Hok. split; [exact (draft_fetch_total owner repo weeks w Hok)|].
  intros p Hp.
  pose proof (draft_produces_inv owner repo weeks w p Hp) as Hinv.
  cbv zeta in Hinv. destruct Hinv as (_ & Hname & H1 & _).
  split; [exact Hname|]. rewrite H1. apply scaled_draws_length.
Qed.

(** In the draft too, the language percentages are from 0 to 100. *)
Lemma draft_language_percentages_within_0_100
  (owner repo : string) (weeks : number) (w : World ComparisonState)
  (p : ProjectData) :
  produces owner repo weeks w p ->
  Forall (fun l => leb (num 0) (percentage l) = true /\
                   leb (percentage l) (num 100) = true)
         (languageBreakdown p).
Proof.
  intros Hp. pose proof (draft_produces_inv owner repo weeks w p Hp) as Hinv.
  cbv zeta in Hinv.
  destruct Hinv as (_ & _ & _ & _ & _ & _ & _ & Hlang).
  apply (Forall_map percentage
           (fun x => leb (num 0) x = true /\ leb x (num 100) = true)).
  rewrite Hlang. repeat constructor.
Qed.

(** *** Effects of the data provider *)

(** In the draft too, the call leaves [comparisonState] as it was, logs one
    line and advances the generator. *)
Lemma draft_fetch_leaves_program_state_unchanged
  (owner repo : string) (weeks : number) (w : World ComparisonState) :
  comparisonState (snd (fetchAllDataViaGraphQL owner repo weeks w))
  = comparisonState w /\
  exists k,
    snd (fetchAllDataViaGraphQL owner repo weeks w)
    = mkWorld (random_source w) (k + random_next w) (clock w)
        (console w ++
         [[Str "Executing GraphQL query for "; Str owner; Str "/";
           Str repo; Str " over "; Num weeks; Str " weeks."]])
        (globals w).
Proof.
  pose proof (draft_fetch_cases owner repo weeks w) as Hcases.
  cbv zeta in Hcases.
  destruct Hcases as [[_ Hrej]|[_ (p & Hp & _)]].
  - rewrite Hrej. split; [reflexivity|]. exists O. reflexivity.
  - rewrite Hp. split; [reflexivity|].
    exists (5 * Z.to_nat (ToLength weeks))%nat. cbn [snd]. f_equal. lia.
Qed.

(** *** The comparison view of the draft *)

(** In the draft too, nothing is rendered while a repository is missing. *)
Lemma draft_renderComparisonChart_without_both_repos
  (key : ProjectDataKey) (w : World ComparisonState) :
  repoA (comparisonState w) = None \/ repoB (comparisonState w) = None ->
  renderComparisonChart key w = (Normal tt, w).
Proof.
  unfold comparisonState, renderComparisonChart, bind, get_globals, ret.
  intros [H|H]; rewrite H; cbn [truthy negb orb]; [reflexivity|].
  rewrite orb_true_r. reflexivity.
Qed.

(** With both repositories present the chart is rendered: the line that
    stands for it reaches the console. *)
Lemma draft_renderComparisonChart_with_both_repos
  (key : ProjectDataKey) (w : World ComparisonState) (a b : ProjectData) :
  repoA (comparisonState w) = Some a -> repoB (comparisonState w) = Some b ->
  renderComparisonChart key w
  = (Normal tt,
     mkWorld (random_source w) (random_next w) (clock w)
       (console w ++ [[Str "Rendering comparison chart for metric: ";
                       Str (key_name key)]])
       (globals w)).
Proof.
  unfold comparisonState, renderComparisonChart, bind, get_globals.
  intros Ha Hb. rewrite Ha, Hb. reflexivity.
Qed.

(** Each literal of the type of [comparisonKey] names a field. *)
Lemma draft_comparisonKey_name_is_field (k : ComparisonKey) :
  is_ProjectData_field (comparisonKey_name k) = true.
Proof. destruct k; reflexivity. Qed.

Lemma draft_comparisonKey_of_literal_name (s : string) (k : ComparisonKey) :
  comparisonKey_of_literal s = Some k -> comparisonKey_name k = s.
Proof.
  unfold comparisonKey_of_literal.
  repeat match goal with
         | |- context [String.eqb s ?l] =>
             destruct (String.eqb_spec s l) as [->|_];
             [intros [= <-]; reflexivity|]
         end.
  discriminate.
Qed.

(** The provider and the renderer leave the global variables alone. *)
Lemma draft_fetch_keeps_globals (owner repo : string) (weeks : number)
  (w : World ComparisonState) :
  globals (snd (fetchAllDataViaGraphQL owner repo weeks w)) = globals w.
Proof.
  pose proof (draft_fetch_cases owner repo weeks w) as Hcases.
  cbv zeta in Hcases.
  destruct Hcases as [[_ Hrej]|[_ (p & Hp & _)]].
  - rewrite Hrej. reflexivity.
  - rewrite Hp. reflexivity.
Qed.

Lemma draft_render_keeps_globals (key : ProjectDataKey)
  (w : World ComparisonState) :
  globals (snd (renderComparisonChart key w)) = globals w.
Proof.
  unfold renderComparisonChart, bind, get_globals, ret, console_log.
  destruct (negb (truthy (repoA (globals w)))
            || negb (truthy (repoB (globals w)))); reflexivity.
Qed.

(** A step that the type checker admits keeps a key that names a field. *)
Lemma draft_well_typed_step_keeps_field (a : Action)
  (w : World ComparisonState) :
  is_ProjectData_field (comparisonKey (globals w)) = true ->
  well_typed a = true ->
  is_ProjectData_field (comparisonKey (globals (perform a w))) = true.
Proof.
  intros Hfield Hty.
  destruct a as [o r wk|key| |v|v|value]; cbn [perform].
  - rewrite draft_fetch_keeps_globals. exact Hfield.
  - rewrite draft_render_keeps_globals. exact Hfield.
  - exact Hfield.
  - exact Hfield.
  - exact Hfield.
  - cbn [set_globals snd globals comparisonKey]. cbn [well_typed] in Hty.
    destruct (comparisonKey_of_literal value) as [k|] eqn:Hk;
      [|discriminate Hty].
    apply draft_comparisonKey_of_literal_name in Hk. subst value.
    apply draft_comparisonKey_name_is_field.
Qed.

(** In the draft too, a value that names no field is stored. *)
Lemma draft_comparisonKey_stores_a_non_field :
  is_ProjectData_field "commitCount" = false /\
  comparisonKey
    (comparisonState
       (run [CallFetch "octocat" "hello-world" (num 2);
             AssignComparisonKey "commitCount"]
            (sample_world comparisonState_init)))
  = "commitCount" /\
  fst (renderComparisonChart key_weeklyCommits
         (run [CallFetch "octocat" "hello-world" (num 2);
               AssignComparisonKey "commitCount"]
              (sample_world comparisonState_init)))
  = Normal tt.
Proof. repeat split; vm_compute; reflexivity. Qed.

(** In the draft too, the executions that the type checker admits keep a
    key that names a field. *)
Lemma draft_comparisonKey_names_a_field_when_well_typed
  (actions : list Action) (w0 : World ComparisonState) :
  is_ProjectData_field (comparisonKey (comparisonState w0)) = true ->
  forallb well_typed actions = true ->
  is_ProjectData_field
    (comparisonKey (comparisonState (run actions w0))) = true.
Proof.
  unfold comparisonState.
  revert w0. induction actions as [|a rest IH]; intros w0 Hfield Hty.
  - exact Hfield.
  - cbn [forallb] in Hty. apply andb_true_iff in Hty.
    destruct Hty as [Ha Hrest]. cbn [run].
    apply IH; [|exact Hrest].
    apply draft_well_typed_step_keeps_field; assumption.
Qed.

End DraftFacts.

(* ================================================================== *)
(** * Part III: further facts about [finalUI.ts]                       *)
(* ================================================================== *)

Section FurtherFacts.
Import FinalUI.

(** The world a call of the provider leaves: one more line on the console,
    [k] draws taken, the rest as before. *)
Lemma fetch_final_world (owner repo : string) (weeks : number)
  (w : World ComparisonState) :
  exists k,
    (k = 0%nat \/ k = (5 * Z.to_nat (ToLength weeks))%nat) /\
    snd (fetchAllDataViaGraphQL owner repo weeks w)
    = mkWorld (random_source w) (k + random_next w) (clock w)
              (console w ++ [fetch_line owner repo weeks]) (globals w).
Proof.
  pose proof (fetch_cases owner repo weeks w) as Hcases. cbv zeta in Hcases.
  destruct Hcases as [[_ Hrej]|[_ (p & Hp & _)]].
  - exists O. rewrite Hrej. split; [now left | reflexivity].
  - exists (5 * Z.to_nat (ToLength weeks))%nat. rewrite Hp.
    split; [now right|]. cbn [snd]. unfold fetch_line. f_equal. lia.
Qed.

(** *** How a call ends *)

(** The promise is rejected, with a RangeError, exactly when the length
    asked for exceeds 2^32 - 1, and fulfilled exactly when it does not; the
    call itself never throws.  A rejected call has drawn no random number. *)
Theorem fetch_rejected_iff_length_too_large
  (owner repo : string) (weeks : number) (w : World ComparisonState) :
  (fst (fetchAllDataViaGraphQL owner repo weeks w)
   = Normal (Rejected RangeError)
   <-> MAX_ARRAY_LENGTH < ToLength weeks) /\
  ((exists p, produces owner repo weeks w p)
   <-> ToLength weeks <= MAX_ARRAY_LENGTH) /\
  (forall e, fst (fetchAllDataViaGraphQL owner repo weeks w) <> Throw e) /\
  (MAX_ARRAY_LENGTH < ToLength weeks ->
   random_next (snd (fetchAllDataViaGraphQL owner repo weeks w))
   = random_next w).
Proof.
  pose proof (fetch_cases owner repo weeks w) as Hcases. cbv zeta in Hcases.
  unfold produces.
  destruct Hcases as [[Hlong Hrej]|[Hok (p & Hp & _)]].
  - rewrite Hrej. cbn [fst snd random_next]. repeat split; auto.
    + intros [q Hq]. discriminate Hq.
    + lia.
    + intros e He. discriminate He.
  - rewrite Hp. cbn [fst]. repeat split; auto.
    + intros H. discriminate H.
    + lia.
    + exists p. reflexivity.
    + intros e He. discriminate He.
    + lia.
Qed.

(** *** The weekly sequences, for every number *)

(** Whatever number [weeks] is, an integer or not, the five weekly sequences
    of the [ProjectData] returned have one common length, [ToLength weeks]:
    [weeks] truncated towards zero, and 0 when it is NaN or not positive. *)
Theorem weekly_sequences_share_one_length
  (owner repo : string) (weeks : number) (w : World ComparisonState)
  (p : ProjectData) :
  produces owner repo weeks w p ->
  List.length (weeklyCommits p) = Z.to_nat (ToLength weeks) /\
  List.length (weeklyPrOpened p) = Z.to_nat (ToLength weeks) /\
  List.length (weeklyPrMerged p) = Z.to_nat (ToLength weeks) /\
  List.length (weeklyAdditions p) = Z.to_nat (ToLength weeks) /\
  List.length (weeklyDeletions p) = Z.to_nat (ToLength weeks).
Proof.
  intros Hp. pose proof (produces_inv owner repo weeks w p Hp) as Hinv.
  cbv zeta in Hinv. destruct Hinv as (_ & _ & H1 & H2 & H3 & H4 & H5 & _).
  rewrite H1, H2, H3, H4, H5, !scaled_draws_length.
  repeat split; reflexivity.
Qed.

(** Two weeks and a half: two elements in each sequence. *)
Lemma weekly_sequences_share_one_length_witness :
  exists p,
    produces "octocat" "hello-world" (dec 25 10)
             (sample_world comparisonState_init) p /\
    List.length (weeklyCommits p) = 2%nat /\
    List.length (weeklyPrOpened p) = 2%nat /\
    List.length (weeklyPrMerged p) = 2%nat /\
    List.length (weeklyAdditions p) = 2%nat /\
    List.length (weeklyDeletions p) = 2%nat.
Proof.
  eexists. split.
  - unfold produces. vm_compute. reflexivity.
  - apply (weekly_sequences_share_one_length
             "octocat" "hello-world" (dec 25 10)
             (sample_world comparisonState_init)).
    unfold produces. vm_compute. reflexivity.
Defined.

(** *** Which draw makes which element *)

Lemma scaled_draws_nth {G : Type} (w : World G) (start n i : nat)
  (bound : number) :
  (i < n)%nat ->
  nth_error (scaled_draws w start n bound) i
  = Some (Math_floor (mul (random_source w (start + i)) bound)).
Proof.
  intros Hi. unfold scaled_draws.
  rewrite nth_error_map, nth_error_seq.
  destruct (Nat.ltb_spec i n); [reflexivity|lia].
Qed.

(** The draws are taken in the order of the fields and each one is used
    once: with [n] the common length and [d] the number of draws taken
    before the call, element [i] of [weeklyCommits] is made of draw [d + i],
    that of [weeklyPrOpened] of draw [d + n + i], then [weeklyPrMerged],
    [weeklyAdditions] and [weeklyDeletions] with [2 * n], [3 * n] and
    [4 * n]; the call takes [5 * n] draws in all. *)
Theorem weekly_elements_use_consecutive_draws
  (owner repo : string) (weeks : number) (w : World ComparisonState)
  (p : ProjectData) (i : nat) :
  produces owner repo weeks w p ->
  (i < Z.to_nat (ToLength weeks))%nat ->
  let n := Z.to_nat (ToLength weeks) in
  let d := random_next w in
  let element k bound :=
    Some (Math_floor (mul (random_source w (d + k * n + i)) (num bound))) in
  nth_error (weeklyCommits p) i = element 0%nat 500 /\
  nth_error (weeklyPrOpened p) i = element 1%nat 80 /\
  nth_error (weeklyPrMerged p) i = element 2%nat 60 /\
  nth_error (weeklyAdditions p) i = element 3%nat 5000 /\
  nth_error (weeklyDeletions p) i = element 4%nat 2000 /\
  random_next (snd (fetchAllDataViaGraphQL owner repo weeks w))
  = (d + 5 * n)%nat.
Proof.
  intros Hp Hi n d element.
  pose proof (produces_inv owner repo weeks w p Hp) as Hinv.
  cbv zeta in Hinv. fold n in Hinv. fold n in Hi.
  destruct Hinv as (Hok & _ & H1 & H2 & H3 & H4 & H5 & _).
  rewrite H1, H2, H3, H4, H5, !scaled_draws_nth by exact Hi.
  unfold element, d.
  assert (Hsame : forall a b bound, a = b ->
            Some (Math_floor (mul (random_source w a) bound))
            = Some (Math_floor (mul (random_source w b) bound)))
    by (intros a b bound ->; reflexivity).
  do 5 (split; [apply Hsame; lia|]).
  pose proof (fetch_cases owner repo weeks w) as Hcases. cbv zeta in Hcases.
  destruct Hcases as [[Hlong _]|[_ (q & Hq & _)]]; [lia|].
  rewrite Hq. cbn [snd random_next]. fold n. lia.
Qed.

(** The second of three weeks in the sample world: the draw 0.5 for the
    commits and, three draws later, 0.5 again for the pull requests. *)
Lemma weekly_elements_use_consecutive_draws_witness :
  exists p,
    produces "octocat" "hello-world" (num 3)
             (sample_world comparisonState_init) p /\
    nth_error (weeklyCommits p) 1 = Some (num 250) /\
    nth_error (weeklyPrOpened p) 1 = Some (num 40) /\
    nth_error (weeklyPrMerged p) 1 = Some (num 30) /\
    nth_error (weeklyAdditions p) 1 = Some (num 2500) /\
    nth_error (weeklyDeletions p) 1 = Some (num 1000) /\
    random_next (snd (fetchAllDataViaGraphQL "octocat" "hello-world" (num 3)
                        (sample_world comparisonState_init)))
    = 15%nat.
Proof.
  eexists. split.
  - unfold produces. vm_compute. reflexivity.
  - apply (weekly_elements_use_consecutive_draws
             "octocat" "hello-world" (num 3)
             (sample_world comparisonState_init) _ 1%nat).
    + unfold produces. vm_compute. reflexivity.
    + change (Z.to_nat (ToLength (num 3))) with 3%nat. lia.
Defined.

(** *** What the repository asked for changes *)

Ltac js_normal_in H tac := erewrite bind_normal in H; [cbv beta in H | tac].

(** The mock does not look at the repository: asked in the same world for
    the same number of weeks, two calls return the same data whatever
    [owner] and [repo] are, but for the three fields [owner], [repo] and
    [fullName], which repeat the arguments. *)
Theorem data_does_not_depend_on_repository
  (owner1 repo1 owner2 repo2 : string) (weeks : number)
  (w : World ComparisonState) (p1 p2 : ProjectData) :
  produces owner1 repo1 weeks w p1 ->
  produces owner2 repo2 weeks w p2 ->
  p2 = {| owner := owner2;
          repo := repo2;
          fullName := (owner2 ++ "/" ++ repo2)%string;
          description := description p1;
          stars := stars p1;
          primaryLanguage := primaryLanguage p1;
          avgPrMergeTimeDays := avgPrMergeTimeDays p1;
          weeklyCommits := weeklyCommits p1;
          weeklyPrOpened := weeklyPrOpened p1;
          weeklyPrMerged := weeklyPrMerged p1;
          weeklyAdditions := weeklyAdditions p1;
          weeklyDeletions := weeklyDeletions p1;
          languageBreakdown := languageBreakdown p1;
          triageScore := triageScore p1;
          issuePredictionModel := issuePredictionModel p1;
          doraMetrics := doraMetrics p1;
          teamVelocity := teamVelocity p1;
          apiStatus := apiStatus p1;
          contributors := contributors p1 |}.
Proof.
  intros Hp1 Hp2.
  pose proof (produces_inv owner1 repo1 weeks w p1 Hp1) as Hinv.
  cbv zeta in Hinv. destruct Hinv as (Hok & _).
  unfold produces, fetchAllDataViaGraphQL, async in Hp1, Hp2.
  js_normal_in Hp1 reflexivity.
  do 5 (js_normal_in Hp1 ltac:(apply Array_from_random; exact Hok)).
  js_normal_in Hp1 reflexivity.
  js_normal_in Hp2 reflexivity.
  do 5 (js_normal_in Hp2 ltac:(apply Array_from_random; exact Hok)).
  js_normal_in Hp2 reflexivity.
  unfold ret in Hp1, Hp2. cbn [fst] in Hp1, Hp2.
  injection Hp1 as <-. injection Hp2 as <-. reflexivity.
Qed.

(** The sample world asked for two repositories. *)
Lemma data_does_not_depend_on_repository_witness :
  exists p1 p2,
    produces "octocat" "hello-world" (num 3)
             (sample_world comparisonState_init) p1 /\
    produces "facebook" "react" (num 3)
             (sample_world comparisonState_init) p2 /\
    weeklyCommits p2 = weeklyCommits p1 /\
    apiStatus p2 = apiStatus p1 /\
    fullName p2 = "facebook/react".
Proof.
  eexists. eexists. split; [unfold produces; vm_compute; reflexivity|].
  split; [unfold produces; vm_compute; reflexivity|].
  rewrite (data_does_not_depend_on_repository
             "octocat" "hello-world" "facebook" "react" (num 3)
             (sample_world comparisonState_init) _ _
             ltac:(unfold produces; vm_compute; reflexivity)
             ltac:(unfold produces; vm_compute; reflexivity)).
  repeat split; reflexivity.
Defined.

(** *** The renderer *)

(** What a call of the renderer does, in one equation. *)
Lemma render_run (key : ProjectDataKey) (w : World ComparisonState) :
  renderComparisonChart key w
  = (Normal tt,
     mkWorld (random_source w) (random_next w) (clock w)
       (console w ++
        (if truthy (repoA (globals w)) && truthy (repoB (globals w))
         then [render_line key] else []))
       (globals w)).
Proof.
  unfold renderComparisonChart, bind, get_globals, ret, console_log,
    render_line.
  destruct (repoA (globals w)) as [a|], (repoB (globals w)) as [b|];
    cbn [truthy negb orb andb]; try reflexivity;
    rewrite app_nil_r; destruct w; reflexivity.
Qed.

(** The chart is rendered exactly when both repositories are present: the
    call logs the line that names the metric in that case and nothing
    otherwise.  In both cases it returns normally and leaves the comparison
    state, the generator and the clock as they were. *)
Theorem renderComparisonChart_renders_iff_both_repos
  (key : ProjectDataKey) (w : World ComparisonState) :
  exists lines,
    renderComparisonChart key w
    = (Normal tt,
       mkWorld (random_source w) (random_next w) (clock w)
               (console w ++ lines) (globals w)) /\
    (lines = [render_line key] \/ lines = []) /\
    (lines = [render_line key] <->
     repoA (comparisonState w) <> None /\ repoB (comparisonState w) <> None).
Proof.
  eexists. split; [apply render_run|]. unfold comparisonState.
  destruct (repoA (globals w)) as [a|], (repoB (globals w)) as [b|];
    cbn [truthy andb].
  - split; [now left|]. split; [intros _; split; discriminate|reflexivity].
  - split; [now right|].
    split; [discriminate | intros [_ H]; now elim H].
  - split; [now right|].
    split; [discriminate | intros [H _]; now elim H].
  - split; [now right|].
    split; [discriminate | intros [H _]; now elim H].
Qed.

(** *** Executions *)

(** The file has no code that stores a snapshot: from any state, a
    sequence of calls of its functions leaves [comparisonState] as it is,
    and only adds lines to the console.  So from a state that lacks a
    repository (the initial state lacks both) no sequence of calls ever
    renders a chart: the console gains one line per call of the provider and
    nothing else. *)
Theorem calls_alone_never_render
  (actions : list Action) (w0 : World ComparisonState) :
  forallb is_call actions = true ->
  exists lines,
    comparisonState (run actions w0) = comparisonState w0 /\
    console (run actions w0) = console w0 ++ lines /\
    (repoA (comparisonState w0) = None \/ repoB (comparisonState w0) = None ->
     forallb is_fetch_line lines = true /\
     List.length lines = List.length (filter is_fetch actions)).
Proof.
  unfold comparisonState.
  revert w0. induction actions as [|a rest IH]; intros w0 Hcalls.
  - exists []. rewrite app_nil_r. repeat split; reflexivity.
  - cbn [forallb] in Hcalls. apply andb_true_iff in Hcalls.
    destruct Hcalls as [Ha Hrest].
    assert (Hstep : exists l1,
              globals (perform a w0) = globals w0 /\
              console (perform a w0) = console w0 ++ l1 /\
              (repoA (globals w0) = None \/ repoB (globals w0) = None ->
               forallb is_fetch_line l1 = true /\
               List.length l1 = List.length (filter is_fetch [a]))).
    { destruct a as [o r wk|key| |v|v|value]; try discriminate Ha;
        cbn [perform filter is_fetch].
      - destruct (fetch_final_world o r wk w0) as (k & _ & Hw).
        exists [fetch_line o r wk]. rewrite Hw.
        repeat split; reflexivity.
      - rewrite render_run. eexists. split; [reflexivity|].
        split; [reflexivity|]. intros Hnull.
        assert (Hoff : truthy (repoA (globals w0))
                       && truthy (repoB (globals w0)) = false).
        { destruct Hnull as [-> | ->]; cbn [truthy andb];
            [reflexivity | apply andb_false_r]. }
        rewrite Hoff. split; reflexivity.
      - exists []. cbn. rewrite app_nil_r. repeat split; reflexivity. }
    destruct Hstep as (l1 & Hg1 & Hc1 & Hn1).
    destruct (IH (perform a w0) Hrest) as (l & Hg & Hc & Hn).
    exists (l1 ++ l). cbn [run].
    split; [now rewrite Hg|].
    split; [rewrite Hc, Hc1; now rewrite app_assoc|].
    intros Hnull. destruct (Hn1 Hnull) as [Hf1 Hlen1].
    rewrite <- Hg1 in Hnull. destruct (Hn Hnull) as [Hf Hlen].
    split; [rewrite forallb_app, Hf1, Hf; reflexivity|].
    change (a :: rest) with ([a] ++ rest).
    rewrite filter_app, !length_app, Hlen1, Hlen. reflexivity.
Qed.

(** From the initial state: two fetches and two attempts to render. *)
Lemma calls_alone_never_render_witness :
  exists lines,
    comparisonState
      (run [CallFetch "octocat" "hello-world" (num 2);
            CallRender key_weeklyCommits; Load;
            CallFetch "facebook" "react" (num 1);
            CallRender key_triageScore]
           (sample_world comparisonState_init))
    = comparisonState_init /\
    console
      (run [CallFetch "octocat" "hello-world" (num 2);
            CallRender key_weeklyCommits; Load;
            CallFetch "facebook" "react" (num 1);
            CallRender key_triageScore]
           (sample_world comparisonState_init))
    = [] ++ lines /\
    forallb is_fetch_line lines = true /\
    List.length lines = 2%nat.
Proof.
  destruct (calls_alone_never_render
              [CallFetch "octocat" "hello-world" (num 2);
               CallRender key_weeklyCommits; Load;
               CallFetch "facebook" "react" (num 1);
               CallRender key_triageScore]
              (sample_world comparisonState_init) eq_refl)
    as (lines & Hstate & Hconsole & Hnever).
  exists lines. split; [exact Hstate|]. split; [exact Hconsole|].
  apply Hnever. left. reflexivity.
Defined.

(** *** The two versions of the file *)

Lemma scaled_draws_same_source {G G' : Type} (w : World G) (w' : World G')
  (start n : nat) (bound : number) :
  random_source w' = random_source w ->
  scaled_draws w' start n bound = scaled_draws w start n bound.
Proof. intros H. unfold scaled_draws. rewrite H. reflexivity. Qed.

(** The records added to [finalUI.ts] changed nothing of what the draft
    returned: with the same generator, the two versions reject the same
    calls, and when one returns data so does the other, with the same
    [fullName], the same five weekly sequences and the same language
    percentages. *)
Theorem final_agrees_with_draft
  (owner repo : string) (weeks : number)
  (w : World ComparisonState) (w' : World Part000.ComparisonState) :
  random_source w' = random_source w ->
  random_next w' = random_next w ->
  (fst (fetchAllDataViaGraphQL owner repo weeks w)
   = Normal (Rejected RangeError) <->
   fst (Part000.fetchAllDataViaGraphQL owner repo weeks w')
   = Normal (Rejected RangeError)) /\
  (forall p,
     produces owner repo weeks w p ->
     exists q,
       Part000.produces owner repo weeks w' q /\
       Part000.fullName q = fullName p /\
       Part000.weeklyCommits q = weeklyCommits p /\
       Part000.weeklyPrOpened q = weeklyPrOpened p /\
       Part000.weeklyPrMerged q = weeklyPrMerged p /\
       Part000.weeklyAdditions q = weeklyAdditions p /\
       Part000.weeklyDeletions q = weeklyDeletions p /\
       map Part000.percentage (Part000.languageBreakdown q)
       = map percentage (languageBreakdown p)).
Proof.
  intros Hsrc Hnext.
  pose proof (fetch_cases owner repo weeks w) as Hf. cbv zeta in Hf.
  pose proof (draft_fetch_cases owner repo weeks w') as Hd. cbv zeta in Hd.
  split.
  - destruct Hf as [[Hlong Hrej]|[Hok (p & Hp & _)]];
      destruct Hd as [[Hlong' Hrej']|[Hok' (q & Hq & _)]]; try lia.
    + rewrite Hrej, Hrej'. split; reflexivity.
    + rewrite Hp, Hq. split; intros H; discriminate H.
  - intros p Hp.
    pose proof (produces_inv owner repo weeks w p Hp) as Hinv.
    cbv zeta in Hinv.
    destruct Hinv as (Hok & Hname & H1 & H2 & H3 & H4 & H5 & Hlang & _).
    destruct (draft_fetch_total owner repo weeks w' Hok) as [q Hq].
    exists q. split; [exact Hq|].
    pose proof (draft_produces_inv owner repo weeks w' q Hq) as Hinv'.
    cbv zeta in Hinv'.
    destruct Hinv' as (_ & Hname' & H1' & H2' & H3' & H4' & H5' & Hlang').
    rewrite Hname, Hname', H1, H1', H2, H2', H3, H3', H4, H4', H5, H5',
      Hlang, Hlang', Hnext.
    rewrite !(scaled_draws_same_source w w') by exact Hsrc.
    repeat split; reflexivity.
Qed.

(** The two sample worlds, asked for three weeks. *)
Lemma final_agrees_with_draft_witness :
  (fst (fetchAllDataViaGraphQL "octocat" "hello-world" (num 3)
          (sample_world comparisonState_init))
   = Normal (Rejected RangeError) <->
   fst (Part000.fetchAllDataViaGraphQL "octocat" "hello-world" (num 3)
          (sample_world Part000.comparisonState_init))
   = Normal (Rejected RangeError)) /\
  (forall p,
     produces "octocat" "hello-world" (num 3)
              (sample_world comparisonState_init) p ->
     exists q,
       Part000.produces "octocat" "hello-world" (num 3)
                        (sample_world Part000.comparisonState_init) q /\
       Part000.fullName q = fullName p /\
       Part000.weeklyCommits q = weeklyCommits p /\
       Part000.weeklyPrOpened q = weeklyPrOpened p /\
       Part000.weeklyPrMerged q = weeklyPrMerged p /\
       Part000.weeklyAdditions q = weeklyAdditions p /\
       Part000.weeklyDeletions q = weeklyDeletions p /\
       map Part000.percentage (Part000.languageBreakdown q)
       = map percentage (languageBreakdown p)).
Proof.
  apply (final_agrees_with_draft
           "octocat" "hello-world" (num 3)
           (sample_world comparisonState_init)
           (sample_world Part000.comparisonState_init)).
  - reflexivity.
  - reflexivity.
Defined.

End FurtherFacts.
